(** * file-context-mcp: context assembly and model dispatch

    A shallow embedding of the TypeScript sources
    [src/utils/promptUtils.ts], [src/utils/fileUtils.ts],
    [src/core/fileSystem.ts] and [src/core/modelInterface.ts], together
    with the statements checked against them.

    Conventions.
    - A JavaScript string is a [string]; positions and lengths are [Z], so
      that the [-1] of [lastIndexOf] and the negative arguments of [slice]
      are values of the model.
    - A rejected promise or a [throw] is the left summand of a [sum]; the
      [await]s of the source are sequential, so no interleaving is modelled.
    - Node's [path] module is modelled in its POSIX flavour. *)

From Stdlib Require Import ZArith Lia List Bool Ascii String.
Import ListNotations.
Open Scope string_scope.
Open Scope Z_scope.
Set Warnings "-register-all".

(** ** JavaScript string primitives *)

Module Js.

Definition LF : ascii := "010"%char.

Definition strlen (s : string) : Z := Z.of_nat (String.length s).

(** Relative index of [String.prototype.slice]: negative positions count
    from the end, and everything is clamped to [0 .. len]. *)
Definition clampIndex (len i : Z) : Z :=
  if i <? 0 then Z.max (len + i) 0 else Z.min i len.

(** [s.slice(start, stop)]. *)
Definition slice (s : string) (start stop : Z) : string :=
  let len := strlen s in
  let from := clampIndex len start in
  let to := clampIndex len stop in
  substring (Z.to_nat from) (Z.to_nat (Z.max (to - from) 0)) s.

(** Scan left to right, remembering the last position that holds [c]. *)
Fixpoint lastIndexOfFrom (c : ascii) (s : string) (i acc : Z) : Z :=
  match s with
  | EmptyString => acc
  | String d r =>
      lastIndexOfFrom c r (i + 1) (if Ascii.eqb d c then i else acc)
  end.

(** [s.lastIndexOf(c)] for a one-character search string: the greatest
    position holding [c], or [-1]. *)
Definition lastIndexOf (s : string) (c : ascii) : Z :=
  lastIndexOfFrom c s 0 (-1).

(** [s.charAt(i)] as an option. *)
Definition charAt (s : string) (i : Z) : option ascii :=
  if i <? 0 then None else String.get (Z.to_nat i) s.

(** [s.endsWith(p)]. *)
Definition endsWith (s p : string) : bool :=
  let ls := String.length s in
  let lp := String.length p in
  (lp <=? ls)%nat && String.eqb (substring (ls - lp) lp s) p.

End Js.

(** ** promptUtils *)

Module promptUtils.

Import Js.

Definition defaultMaxLength : Z := 4000.

(** The two literals appended by [truncateContext]. *)
Definition newlineMarker : string := String LF "... (truncated)".
Definition hardMarker : string := "... (truncated)".

(** [lastNewline > maxLength * 0.8].  The source compares the integer
    [lastNewline] with a double.  For an integer [maxLength] with
    [0 <= maxLength < 2^50] the product is either the integer
    [4 * maxLength / 5] exactly (when 5 divides [maxLength]) or a
    non-integer strictly between two consecutive integers, so the
    comparison agrees with the integer one below. *)
Definition pastThreshold (lastNewline maxLength : Z) : bool :=
  4 * maxLength <? 5 * lastNewline.

Definition truncateContext (context : string) (maxLength : Z) : string :=
  if strlen context <=? maxLength then context
  else
    let truncated := slice context 0 maxLength in
    let lastNewline := lastIndexOf truncated LF in
    if pastThreshold lastNewline maxLength
    then slice truncated 0 lastNewline ++ newlineMarker
    else truncated ++ hardMarker.

(** [formatContextPrompt]: the template literal, line by line. *)
Definition formatContextPrompt (context query : string) : string :=
  String LF "  You are an AI assistant analyzing the following content:"
  ++ String LF "  "
  ++ String LF "  ---BEGIN CONTEXT---"
  ++ String LF "  " ++ context
  ++ String LF "  ---END CONTEXT---"
  ++ String LF "  "
  ++ String LF "  Please respond to the following query:"
  ++ String LF "  " ++ query
  ++ String LF "  "
  ++ String LF "  Base your response only on the information provided in the context above."
  ++ String LF "  ".

End promptUtils.

(** ** Node's [path] module (POSIX)

    [path] is a Node built-in, not part of the repository.  The functions
    the sources call are modelled after Node's [lib/path.js]: the
    normalisation of [normalizeString] segment by segment, [extname] as the
    backward scan it is written as. *)

Module path.

Import Js.

Definition isSlash (c : ascii) : bool := Ascii.eqb c "/".
Definition isDot (c : ascii) : bool := Ascii.eqb c ".".

(** The pieces of [s] between consecutive ['/']: [n] separators give
    [n + 1] pieces, some of them possibly empty. *)
Fixpoint splitSlash (s : string) : list string :=
  match s with
  | EmptyString => [EmptyString]
  | String c r =>
      if isSlash c then EmptyString :: splitSlash r
      else match splitSlash r with
           | h :: t => String c h :: t
           | [] => [String c EmptyString]
           end
  end.

Definition joinSlash (segs : list string) : string :=
  String.concat "/" segs.

(** One separator met by [normalizeString].  [stack] holds the segments
    kept so far, last one first.  Empty and ["."] segments are dropped; a
    [".."] removes the last kept segment unless there is none or it is
    itself [".."], in which case it is kept only if [allowAboveRoot]. *)
Definition pushSegment (allowAboveRoot : bool)
           (stack : list string) (seg : string) : list string :=
  if String.eqb seg "" || String.eqb seg "." then stack
  else if String.eqb seg ".." then
    match stack with
    | top :: below =>
        if String.eqb top ".."
        then (if allowAboveRoot then ".." :: stack else stack)
        else below
    | [] => if allowAboveRoot then [".."] else []
    end
  else seg :: stack.

Definition normalizeSegments (allowAboveRoot : bool)
           (segs : list string) : list string :=
  rev (fold_left (pushSegment allowAboveRoot) segs []).

Definition normalizeString (p : string) (allowAboveRoot : bool) : string :=
  joinSlash (normalizeSegments allowAboveRoot (splitSlash p)).

Definition isAbsolute (p : string) : bool :=
  match p with
  | String c _ => isSlash c
  | EmptyString => false
  end.

Definition hasTrailingSlash (p : string) : bool :=
  match charAt p (strlen p - 1) with
  | Some c => isSlash c
  | None => false
  end.

(** [path.normalize]. *)
Definition normalize (p : string) : string :=
  if String.eqb p "" then "."
  else
    let absolute := isAbsolute p in
    let trailingSeparator := hasTrailingSlash p in
    let n := normalizeString p (negb absolute) in
    if String.eqb n "" then
      if absolute then "/" else if trailingSeparator then "./" else "."
    else
      (if absolute then "/" else "") ++ n
      ++ (if trailingSeparator then "/" else "").

(** The loop of [path.resolve]: [candidates] are the arguments from last
    to first, followed by the working directory.  It stops at the first
    absolute candidate. *)
Fixpoint resolveLoop (candidates : list string) (resolvedPath : string)
  : string * bool :=
  match candidates with
  | [] => (resolvedPath, false)
  | p :: rest =>
      if String.eqb p "" then resolveLoop rest resolvedPath
      else
        let resolvedPath' := p ++ "/" ++ resolvedPath in
        if isAbsolute p then (resolvedPath', true)
        else resolveLoop rest resolvedPath'
  end.

(** [path.resolve(...args)] in a process whose working directory is
    [cwd]. *)
Definition resolve (cwd : string) (args : list string) : string :=
  let '(resolvedPath, resolvedAbsolute) :=
    resolveLoop (rev args ++ [cwd]) "" in
  let n := normalizeString resolvedPath (negb resolvedAbsolute) in
  if resolvedAbsolute then "/" ++ n
  else if String.eqb n "" then "." else n.

(** [path.join(...args)]. *)
Definition join (args : list string) : string :=
  match filter (fun a => negb (String.eqb a "")) args with
  | [] => "."
  | parts => normalize (joinSlash parts)
  end.

(** [path.basename(p)]: the last non-empty piece, trailing separators
    ignored. *)
Definition basename (p : string) : string :=
  match filter (fun a => negb (String.eqb a "")) (rev (splitSlash p)) with
  | [] => ""
  | last :: _ => last
  end.

(** State of the backward scan of [path.extname]. *)
Record ExtState := mkExtState {
  startDot : Z;
  startPart : Z;
  endPos : Z;
  matchedSlash : bool;
  preDotState : Z
}.

Definition extInit : ExtState := mkExtState (-1) 0 (-1) true 0.

(** The body of the loop for a character that is not a separator. *)
Definition extChar (code : ascii) (i : Z) (st : ExtState) : ExtState :=
  let st1 :=
    if endPos st =? -1
    then mkExtState (startDot st) (startPart st) (i + 1) false
                    (preDotState st)
    else st in
  if isDot code then
    if startDot st1 =? -1
    then mkExtState i (startPart st1) (endPos st1) (matchedSlash st1)
                    (preDotState st1)
    else if negb (preDotState st1 =? 1)
    then mkExtState (startDot st1) (startPart st1) (endPos st1)
                    (matchedSlash st1) 1
    else st1
  else if negb (startDot st1 =? -1)
  then mkExtState (startDot st1) (startPart st1) (endPos st1)
                  (matchedSlash st1) (-1)
  else st1.

(** [for (let i = path.length - 1; i >= 0; --i)]: [revChars] are the
    characters at positions [i, i - 1, ..., 0]. *)
Fixpoint extLoop (revChars : list ascii) (i : Z) (st : ExtState)
  : ExtState :=
  match revChars with
  | [] => st
  | code :: rest =>
      if isSlash code then
        if negb (matchedSlash st)
        then mkExtState (startDot st) (i + 1) (endPos st)
                        (matchedSlash st) (preDotState st)
        else extLoop rest (i - 1) st
      else extLoop rest (i - 1) (extChar code i st)
  end.

(** [path.extname(p)]. *)
Definition extname (p : string) : string :=
  let st := extLoop (rev (list_ascii_of_string p)) (strlen p - 1) extInit in
  if (startDot st =? -1) || (endPos st =? -1) || (preDotState st =? 0)
     || ((preDotState st =? 1) && (startDot st =? endPos st - 1)
         && (startDot st =? startPart st + 1))
  then ""
  else slice p (startDot st) (endPos st).

End path.

(** ** fileUtils *)

Module fileUtils.

Import Js.

(** [toLowerCase] on the characters of the model: ['A'..'Z'] are mapped
    to ['a'..'z'], every other character is left as it is. *)
Definition lowerChar (c : ascii) : ascii :=
  let n := nat_of_ascii c in
  if ((65 <=? n) && (n <=? 90))%nat then ascii_of_nat (n + 32) else c.

Fixpoint toLowerCase (s : string) : string :=
  match s with
  | EmptyString => EmptyString
  | String c r => String (lowerChar c) (toLowerCase r)
  end.

Definition textExtensions : list string :=
  [ ".txt"; ".md"; ".js"; ".ts"; ".json"; ".yaml"; ".yml";
    ".html"; ".css"; ".csv"; ".xml"; ".log"; ".env";
    ".jsx"; ".tsx"; ".py"; ".java"; ".cpp"; ".c"; ".h" ].

(** [Array.prototype.includes] on strings. *)
Definition includes (l : list string) (x : string) : bool :=
  existsb (String.eqb x) l.

Definition isTextFile (filePath : string) : bool :=
  includes textExtensions (toLowerCase (path.extname filePath)).

(** [.replace(/^(\.\.(\/|\\|$))+/, '')]: the anchored, greedy group eats
    [".."] followed by a slash, by a backslash, or by the end of the
    string, as many times as it matches; a string that does not start so
    is returned unchanged. *)
Fixpoint stripLeadingTraversal (s : string) : string :=
  match s with
  | String c1 (String c2 rest) =>
      if Ascii.eqb c1 "." && Ascii.eqb c2 "." then
        match rest with
        | EmptyString => EmptyString
        | String c r =>
            if Ascii.eqb c "/" || Ascii.eqb c "\"
            then stripLeadingTraversal r
            else s
        end
      else s
  | _ => s
  end.

(** [sanitizePath], in a process whose working directory is [cwd]. *)
Definition sanitizePath (cwd inputPath : string) : string :=
  let normalizedPath := stripLeadingTraversal (path.normalize inputPath) in
  path.resolve cwd [normalizedPath].

End fileUtils.

(** ** Thrown values and JSON data *)

Module Exn.

(** An [Error] instance: the name of its class, the [code] Node attaches
    to system errors ([ENOENT], [EACCES], ...) and its message. *)
Record JsError := mkJsError {
  errName : string;
  errCode : option string;
  errMessage : string
}.

(** What a [throw] or a rejected promise carries: an [Error] instance or
    any other value. *)
Inductive Thrown :=
| ThrowError (e : JsError)
| ThrowOther.

(** [new Error(message)]. *)
Definition newError (message : string) : Thrown :=
  ThrowError (mkJsError "Error" None message).

(** [error instanceof Error ? error.message : 'Unknown error']. *)
Definition messageOf (error : Thrown) : string :=
  match error with
  | ThrowError e => errMessage e
  | ThrowOther => "Unknown error"
  end.

(** The class name of a thrown value, when it is an [Error]. *)
Definition classOf (error : Thrown) : option string :=
  match error with
  | ThrowError e => Some (errName e)
  | ThrowOther => None
  end.

Definition codeOf (error : Thrown) : option string :=
  match error with
  | ThrowError e => errCode e
  | ThrowOther => None
  end.

End Exn.

Module Json.

Import Exn.

(** Values found in a parsed response body, and [undefined] for what is
    missing.  Numbers are kept as integers: only whether a number is zero
    matters below. *)
Inductive JsValue :=
| VUndefined
| VNull
| VBool (b : bool)
| VNum (n : Z)
| VStr (s : string)
| VArr (items : list JsValue)
| VObj (fields : list (string * JsValue)).

(** [!v] is [negb (truthy v)]. *)
Definition truthy (v : JsValue) : bool :=
  match v with
  | VUndefined | VNull => false
  | VBool b => b
  | VNum n => negb (n =? 0)
  | VStr s => negb (String.eqb s "")
  | VArr _ | VObj _ => true
  end.

Fixpoint lookup (fields : list (string * JsValue)) (key : string)
  : JsValue :=
  match fields with
  | [] => VUndefined
  | (k, v) :: rest => if String.eqb k key then v else lookup rest key
  end.

(** [v.key] for a key that is not a built-in property of strings,
    numbers, booleans or arrays (the sources read [response], [output]
    and [text]): reading from [undefined] or [null] throws a [TypeError],
    an object yields the field or [undefined], anything else
    [undefined]. *)
Definition getProp (v : JsValue) (key : string) : Thrown + JsValue :=
  match v with
  | VUndefined =>
      inl (ThrowError (mkJsError "TypeError" None
        ("Cannot read properties of undefined (reading '" ++ key ++ "')")))
  | VNull =>
      inl (ThrowError (mkJsError "TypeError" None
        ("Cannot read properties of null (reading '" ++ key ++ "')")))
  | VObj fields => inr (lookup fields key)
  | _ => inr VUndefined
  end.

End Json.

(** ** FileSystemTools *)

Module FileSystemTools.

Import Exn.

Record Dirent := mkDirent {
  entryName : string;
  entryIsDirectory : bool
}.

Record Stats := mkStats { isDirectory : bool }.

(** The three calls of [fs/promises] the class makes.  Each either
    rejects with a thrown value or resolves. *)
Record FsApi := mkFsApi {
  stat : string -> Thrown + Stats;
  readdir : string -> Thrown + list Dirent;
  readFileUtf8 : string -> Thrown + string
}.

Inductive FileType := file | directory.

Record FileInfo := mkFileInfo {
  fiName : string;
  fiPath : string;
  fiType : FileType;
  fiContent : option string
}.

Definition entryInfo (dirPath : string) (entry : Dirent) : FileInfo :=
  let fullPath := path.join [dirPath; entryName entry] in
  mkFileInfo (entryName entry) fullPath
             (if entryIsDirectory entry then directory else file)
             None.

Definition readDirectory (fs : FsApi) (dirPath : string)
  : Thrown + list FileInfo :=
  match readdir fs dirPath with
  | inr entries => inr (map (entryInfo dirPath) entries)
  | inl error =>
      inl (newError ("Failed to read directory: " ++ messageOf error))
  end.

Definition readFile (fs : FsApi) (filePath : string)
  : Thrown + FileInfo :=
  match readFileUtf8 fs filePath with
  | inr content =>
      inr (mkFileInfo (path.basename filePath) filePath file (Some content))
  | inl error =>
      inl (newError ("Failed to read file: " ++ messageOf error))
  end.

Definition getContextFromPath (fs : FsApi) (targetPath : string)
  : Thrown + list FileInfo :=
  match stat fs targetPath with
  | inl error => inl error
  | inr st =>
      if isDirectory st then readDirectory fs targetPath
      else match readFile fs targetPath with
           | inl error => inl error
           | inr info => inr [info]
           end
  end.

End FileSystemTools.

(** ** ModelInterface *)

Module ModelInterface.

Import Exn Json.

Record Config := mkConfig {
  togetherApiKey : string;
  ollamaBaseUrl : string;
  modelName : string
}.

Record HttpRequest := mkHttpRequest {
  reqUrl : string;
  reqBody : JsValue;
  reqHeaders : list (string * string)
}.

(** [await axios.post(...)]: the promise rejects (transport failure,
    timeout, a status outside 2xx) or resolves to a response whose [data]
    is the parsed body. *)
Inductive HttpOutcome :=
| Rejected (error : Thrown)
| Resolved (data : JsValue).

Definition Backend := HttpRequest -> HttpOutcome.

Record LLMResponse := mkLLMResponse {
  text : JsValue;
  model : string;
  error : option string
}.

Definition formatPrompt (prompt context : string) : string :=
  "Context: " ++ context ++ String Js.LF (String Js.LF "Question: ")
  ++ prompt.

Definition ollamaRequest (config : Config) (prompt context : string)
  : HttpRequest :=
  mkHttpRequest
    (ollamaBaseUrl config ++ "/api/generate")
    (VObj [ ("model", VStr (modelName config));
            ("prompt", VStr (formatPrompt prompt context));
            ("stream", VBool false) ])
    [].

Definition togetherRequest (config : Config) (prompt context : string)
  : HttpRequest :=
  mkHttpRequest
    "https://api.together.xyz/inference"
    (VObj [ ("model", VStr (modelName config));
            ("prompt", VStr (formatPrompt prompt context));
            ("max_tokens", VNum 512) ])
    [ ("Authorization", "Bearer " ++ togetherApiKey config) ].

(** The [try] block of [queryOllama]. *)
Definition queryOllamaTry (config : Config) (backend : Backend)
           (prompt context : string) : Thrown + LLMResponse :=
  match backend (ollamaRequest config prompt context) with
  | Rejected e => inl e
  | Resolved data =>
      if negb (truthy data)
      then inl (newError "Invalid response from Ollama")
      else
        match getProp data "response" with
        | inl e => inl e
        | inr r =>
            if negb (truthy r)
            then inl (newError "Invalid response from Ollama")
            else inr (mkLLMResponse r "ollama" None)
        end
  end.

(** [queryOllama]: the [try] block, and the [catch] clause (whose
    [console.error] is not modelled). *)
Definition queryOllama (config : Config) (backend : Backend)
           (prompt context : string) : LLMResponse :=
  match queryOllamaTry config backend prompt context with
  | inr response => response
  | inl e => mkLLMResponse (VStr "") "ollama" (Some (messageOf e))
  end.

(** The [try] block of [queryTogether]. *)
Definition queryTogetherTry (config : Config) (backend : Backend)
           (prompt context : string) : Thrown + LLMResponse :=
  match backend (togetherRequest config prompt context) with
  | Rejected e => inl e
  | Resolved data =>
      match getProp data "output" with
      | inl e => inl e
      | inr output =>
          match getProp output "text" with
          | inl e => inl e
          | inr t => inr (mkLLMResponse t "together" None)
          end
      end
  end.

Definition queryTogether (config : Config) (backend : Backend)
           (prompt context : string) : LLMResponse :=
  match queryTogetherTry config backend prompt context with
  | inr response => response
  | inl e => mkLLMResponse (VStr "") "together" (Some (messageOf e))
  end.

End ModelInterface.

(** ** Vocabulary of the statements *)

Module Lexical.

(** A name without any dot or separator after its first character. *)
Definition plainChar (c : ascii) : bool :=
  negb (path.isDot c) && negb (path.isSlash c).

Definition plainName (s : string) : bool :=
  forallb plainChar (list_ascii_of_string s).

Definition noBackslash (s : string) : bool :=
  forallb (fun c => negb (Ascii.eqb c "\")) (list_ascii_of_string s).

(** The non-empty pieces of a path. *)
Definition nonEmpty (seg : string) : bool := negb (String.eqb seg "").

Definition segments (p : string) : list string :=
  filter nonEmpty (path.splitSlash p).

(** A piece that names an entry: neither ["."] nor [".."]. *)
Definition properSegment (seg : string) : bool :=
  negb (String.eqb seg ".") && negb (String.eqb seg "..").

Fixpoint isPrefixOf (l1 l2 : list string) : bool :=
  match l1, l2 with
  | [], _ => true
  | a :: l1', b :: l2' => String.eqb a b && isPrefixOf l1' l2'
  | _ :: _, [] => false
  end.

(** What [process.cwd()] returns: an absolute path without ["."] or
    [".."] pieces. *)
Definition resolvedDirectory (cwd : string) : bool :=
  path.isAbsolute cwd && forallb properSegment (segments cwd).

(** [p] is lexically inside [root]: it is absolute, it climbs nowhere,
    and the pieces of [root] are the first pieces of [p]. *)
Definition lexicallyInside (root p : string) : bool :=
  path.isAbsolute p
  && forallb properSegment (segments p)
  && isPrefixOf (segments root) (segments p).

(** What the scan of [extname] knows while it has met no dot: the dot and
    pre-dot states are untouched, and once an end is marked the trailing
    separators are over. *)
Definition beforeDot (st : path.ExtState) : Prop :=
  path.startDot st = -1 /\ path.preDotState st = 0 /\
  (path.endPos st = -1 \/ path.matchedSlash st = false).

(** What the anchored replacement of [sanitizePath] does to the pieces of a
    path without backslashes: leading [".."] pieces go, and a path made of
    them alone becomes the empty string. *)
Fixpoint dropLeadingParents (segs : list string) : list string :=
  match segs with
  | seg :: rest =>
      if String.eqb seg ".." then
        match rest with
        | [] => [""]
        | _ :: _ => dropLeadingParents rest
        end
      else segs
  | [] => []
  end.

Definition slashFree (seg : string) : bool :=
  forallb (fun c => negb (path.isSlash c)) (list_ascii_of_string seg).

Definition cleanPiece (seg : string) : Prop :=
  slashFree seg = true /\ noBackslash seg = true.

(** A piece [normalizeString] keeps as it is. *)
Definition keptSegment (seg : string) : bool :=
  nonEmpty seg && negb (String.eqb seg ".").

Definition notParent (seg : string) : bool := negb (String.eqb seg "..").

(** A piece that names an entry and is kept. *)
Definition goodSegment (seg : string) : bool :=
  keptSegment seg && notParent seg.

(** Pieces that do not start like an absolute path: no empty first piece
    followed by more. *)
Definition relativePieces (segs : list string) : Prop :=
  match segs with
  | first :: _ :: _ => first <> ""
  | _ => True
  end.

End Lexical.

(** ** A small world to run the code in *)

Module Samples.

Import Exn Json FileSystemTools ModelInterface.

(** Node's system errors, as [fs] raises them. *)
Definition systemError (code message : string) : Thrown :=
  ThrowError (mkJsError "Error" (Some code) message).

Definition enoent (p : string) : Thrown :=
  systemError "ENOENT"
    ("ENOENT: no such file or directory, stat '" ++ p ++ "'").

Definition eacces (syscall p : string) : Thrown :=
  systemError "EACCES"
    ("EACCES: permission denied, " ++ syscall ++ " '" ++ p ++ "'").

Definition eio : Thrown := systemError "EIO" "EIO: i/o error, read".

(** A storage directory with a readable file, a subdirectory, a file the
    process may not read and a file on a failing disk, and a directory the
    process may not list. *)
Definition sampleFs : FsApi :=
  mkFsApi
    (fun p =>
       if String.eqb p "/srv/app/storage" then inr (mkStats true)
       else if String.eqb p "/srv/app/locked" then inr (mkStats true)
       else if String.eqb p "/srv/app/storage/notes.md"
       then inr (mkStats false)
       else if String.eqb p "/srv/app/storage/secret.txt"
       then inr (mkStats false)
       else if String.eqb p "/srv/app/storage/broken.txt"
       then inr (mkStats false)
       else inl (enoent p))
    (fun p =>
       if String.eqb p "/srv/app/storage"
       then inr [ mkDirent "notes.md" false; mkDirent "sub" true ]
       else inl (eacces "scandir" p))
    (fun p =>
       if String.eqb p "/srv/app/storage/notes.md" then inr "hello world"
       else if String.eqb p "/srv/app/storage/broken.txt" then inl eio
       else inl (eacces "open" p)).

Definition sampleConfig : Config :=
  mkConfig "secret-key" "http://localhost:11434" "llama2".

(** A backend that answers every request the same way. *)
Definition always (outcome : HttpOutcome) : Backend := fun _ => outcome.

Definition greeting : JsValue := VObj [("response", VStr "A greeting.")].

(** The body the Together inference endpoint sends: the completions sit
    under [output.choices], and [output] has no [text] field. *)
Definition choicesBody : JsValue :=
  VObj [("output",
         VObj [("choices", VArr [VObj [("text", VStr "A greeting.")]])])].

Definition emptyTextBody : JsValue :=
  VObj [("output", VObj [("text", VStr "")])].

Definition networkError : Thrown :=
  ThrowError (mkJsError "AxiosError" (Some "ECONNREFUSED")
                        "connect ECONNREFUSED 127.0.0.1:11434").

End Samples.

(** ** More string primitives *)

Module JsText.

Fixpoint startsWith (s p : string) : bool :=
  match p, s with
  | EmptyString, _ => true
  | String a p', String b s' => Ascii.eqb a b && startsWith s' p'
  | String _ _, EmptyString => false
  end.

(** [s.includes(sub)]: [sub] occurs somewhere in [s]. *)
Fixpoint includes (s sub : string) : bool :=
  startsWith s sub
  || match s with
     | String _ r => includes r sub
     | EmptyString => false
     end.

(** The white space and line terminators [trim] removes, among the
    characters of the model: tab, line feed, vertical tab, form feed,
    carriage return, space and no-break space. *)
Definition isWhiteSpace (c : ascii) : bool :=
  let n := nat_of_ascii c in
  ((9 <=? n) && (n <=? 13) || (n =? 32) || (n =? 160))%nat.

Fixpoint trimStart (s : string) : string :=
  match s with
  | String c r => if isWhiteSpace c then trimStart r else s
  | EmptyString => EmptyString
  end.

Fixpoint trimEnd (s : string) : string :=
  match s with
  | EmptyString => EmptyString
  | String c r =>
      match trimEnd r with
      | EmptyString => if isWhiteSpace c then EmptyString else String c ""
      | t => String c t
      end
  end.

(** [s.trim()]. *)
Definition trim (s : string) : string := trimEnd (trimStart s).

(** [pieces.join(sep)]. *)
Definition joinWith (sep : string) (pieces : list string) : string :=
  String.concat sep pieces.

End JsText.

(** ** validators *)

Module validators.

Import Js JsText Json.

(** The arguments are declared as strings, but each validator checks
    [typeof] first: they are given whatever the request body holds. *)
Definition isValidPath (path : JsValue) : bool :=
  match path with
  | VStr p => (0 <? strlen p) && negb (includes p "..")
  | _ => false
  end.

Definition isValidQuery (query : JsValue) : bool :=
  match query with
  | VStr q => 0 <? strlen (trim q)
  | _ => false
  end.

Definition validModels : list string := ["ollama"; "together"].

Definition isValidModel (model : JsValue) : bool :=
  match model with
  | VStr m => existsb (String.eqb m) validModels
  | _ => false
  end.

End validators.

(** ** UserManager *)

Module UserManager.

Record User := mkUser {
  userId : string;
  userName : string;
  userEmail : string
}.

(** The private array [users], oldest first. *)
Definition Users := list User.

Definition empty : Users := [].

(** [this.users.push(user)]. *)
Definition addUser (users : Users) (user : User) : Users :=
  (users ++ [user])%list.

(** [this.users.find(user => user.id === id)]. *)
Definition findUser (users : Users) (id : string) : option User :=
  find (fun user => String.eqb (userId user) id) users.

End UserManager.

(** ** The query route of the server *)

Module Server.

Import Exn Json FileSystemTools ModelInterface.

(** What a request is served with: the working directory of the process,
    the file system, the configuration and the model backends. *)
Record World := mkWorld {
  cwd : string;
  fs : FsApi;
  config : Config;
  backend : Backend
}.

Inductive ReplyBody :=
| BodyResponse (response : LLMResponse)
| BodyError (message : string).

Record HttpReply := mkHttpReply {
  status : Z;
  body : ReplyBody
}.

(** [file.content && fileUtils.isTextFile(file.path)]. *)
Definition inContext (info : FileInfo) : bool :=
  match fiContent info with
  | Some content =>
      negb (String.eqb content "") && fileUtils.isTextFile (fiPath info)
  | None => false
  end.

(** [`File: ${file.name}\n${file.content}`]; an absent content would print
    as [undefined], which [inContext] rules out. *)
Definition renderFile (info : FileInfo) : string :=
  "File: " ++ fiName info
  ++ String Js.LF (match fiContent info with
                   | Some content => content
                   | None => "undefined"
                   end).

Definition buildContext (contextFiles : list FileInfo) : string :=
  JsText.joinWith (String Js.LF (String Js.LF ""))
                  (map renderFile (filter inContext contextFiles)).

(** [const { path, query, model = 'ollama' } = req.body]. *)
Definition destructure (reqBody : JsValue)
  : Thrown + (JsValue * JsValue * JsValue) :=
  match reqBody with
  | VUndefined =>
      inl (ThrowError (mkJsError "TypeError" None
        "Cannot destructure property 'path' of 'req.body' as it is undefined."))
  | VNull =>
      inl (ThrowError (mkJsError "TypeError" None
        "Cannot destructure property 'path' of 'req.body' as it is null."))
  | VObj fields =>
      inr (lookup fields "path", lookup fields "query",
           match lookup fields "model" with
           | VUndefined => VStr "ollama"
           | m => m
           end)
  | _ => inr (VUndefined, VUndefined, VStr "ollama")
  end.

(** [model === 'ollama' ? queryOllama(...) : queryTogether(...)]. *)
Definition dispatch (w : World) (model : JsValue)
           (formattedPrompt context : string) : LLMResponse :=
  let isOllama :=
    match model with
    | VStr m => String.eqb m "ollama"
    | _ => false
    end in
  if isOllama
  then queryOllama (config w) (backend w) formattedPrompt context
  else queryTogether (config w) (backend w) formattedPrompt context.

(** The [try] block of the [POST /api/query] handler.  The two calls of
    [Logger] write to the console and are not modelled. *)
Definition handleQueryTry (w : World) (reqBody : JsValue)
  : Thrown + LLMResponse :=
  match destructure reqBody with
  | inl e => inl e
  | inr (path, query, model) =>
      if negb (validators.isValidPath path)
         || negb (validators.isValidQuery query)
      then inl (newError "Invalid input parameters")
      else
        match path, query with
        | VStr p, VStr q =>
            let sanitizedPath := fileUtils.sanitizePath (cwd w) p in
            match getContextFromPath (fs w) sanitizedPath with
            | inl e => inl e
            | inr contextFiles =>
                let context := buildContext contextFiles in
                let formattedPrompt :=
                  promptUtils.formatContextPrompt
                    (promptUtils.truncateContext
                       context promptUtils.defaultMaxLength)
                    q in
                inr (dispatch w model formattedPrompt context)
            end
        | _, _ =>
            (* not reached: both validators have checked [typeof] *)
            inl (newError "Invalid input parameters")
        end
  end.

(** The handler: [res.json(response)], or the [catch] clause with its
    status 500. *)
Definition handleQuery (w : World) (reqBody : JsValue) : HttpReply :=
  match handleQueryTry w reqBody with
  | inr response => mkHttpReply 200 (BodyResponse response)
  | inl e => mkHttpReply 500 (BodyError (messageOf e))
  end.

End Server.

(** ** Entries of a directory *)

Module Entries.

Import FileSystemTools Lexical.

(** The name of an entry as the file system gives it: not empty, not
    ["."], not [".."], and without separator. *)
Definition properEntry (entry : Dirent) : Prop :=
  goodSegment (entryName entry) = true /\ slashFree (entryName entry) = true.

End Entries.

(** ** Values a property cannot be read from *)

Module Nullish.

Import Json.

Definition nullish (v : JsValue) : bool :=
  match v with
  | VUndefined | VNull => true
  | _ => false
  end.

End Nullish.

(** ** Sample requests *)

Module SampleRequests.

Import Json ModelInterface Samples Server UserManager.

(** A server started in [/srv/app], whose backends answer with a
    greeting, and one whose backends are down. *)
Definition world : World :=
  mkWorld "/srv/app" sampleFs sampleConfig (always (Resolved greeting)).

Definition worldOffline : World :=
  mkWorld "/srv/app" sampleFs sampleConfig (always (Rejected networkError)).

Definition queryBody (path : string) (model : JsValue) : JsValue :=
  VObj [("path", VStr path); ("query", VStr "summarize"); ("model", model)].

Definition ada : User := mkUser "u1" "Ada" "ada@example.org".
Definition grace : User := mkUser "u2" "Grace" "grace@example.org".
Definition impostor : User := mkUser "u1" "Eve" "eve@example.org".

End SampleRequests.

(** * Properties *)

(** ** Strings *)

Section StringFacts.

Import Js.

Lemma length_app (a b : string) :
  String.length (a ++ b) = (String.length a + String.length b)%nat.
Proof.
  induction a as [|c a IH]; simpl; [reflexivity | now rewrite IH].
Qed.

Lemma strlen_app (a b : string) : strlen (a ++ b) = strlen a + strlen b.
Proof. unfold strlen. rewrite length_app. lia. Qed.

Lemma strlen_nonneg (s : string) : 0 <= strlen s.
Proof. unfold strlen. lia. Qed.

Lemma substring_0_length (s : string) (n : nat) :
  (n <= String.length s)%nat -> String.length (substring 0 n s) = n.
Proof.
  revert n. induction s as [|c s IH]; intros [|n] H; simpl in *;
    try reflexivity; try lia.
  rewrite IH; [reflexivity | lia].
Qed.

Lemma substring_0_all (s : string) : substring 0 (String.length s) s = s.
Proof. induction s as [|c s IH]; simpl; [reflexivity | now rewrite IH]. Qed.

Lemma substring_0_nested (s : string) (k n : nat) :
  (k <= n)%nat -> substring 0 k (substring 0 n s) = substring 0 k s.
Proof.
  revert k n. induction s as [|c s IH]; intros [|k] [|n] H; simpl;
    try reflexivity; try lia.
  rewrite IH; [reflexivity | lia].
Qed.

Lemma get_substring_0 (s : string) (k n : nat) :
  (k < n)%nat -> String.get k (substring 0 n s) = String.get k s.
Proof.
  revert k n. induction s as [|c s IH]; intros k [|n] H; simpl;
    try reflexivity; try lia.
  destruct k as [|k]; [reflexivity | apply IH; lia].
Qed.

Lemma substring_skip_app (a b : string) (m : nat) :
  substring (String.length a) m (a ++ b) = substring 0 m b.
Proof. induction a as [|c a IH]; simpl; [reflexivity | exact IH]. Qed.

Lemma slice_0 (s : string) (n : Z) :
  0 <= n <= strlen s -> slice s 0 n = substring 0 (Z.to_nat n) s.
Proof.
  intros H. unfold slice, clampIndex.
  replace (0 <? 0) with false by reflexivity.
  destruct (n <? 0) eqn:E; [apply Z.ltb_lt in E; lia|].
  rewrite (Z.min_l 0) by apply strlen_nonneg.
  rewrite (Z.min_l n) by lia.
  rewrite Z.sub_0_r, Z.max_l by lia. reflexivity.
Qed.

Lemma slice_0_strlen (s : string) (n : Z) :
  0 <= n <= strlen s -> strlen (slice s 0 n) = n.
Proof.
  intros H. rewrite slice_0 by assumption. unfold strlen in *.
  rewrite substring_0_length; lia.
Qed.

Lemma slice_0_nested (s : string) (k n : Z) :
  0 <= k <= n -> n <= strlen s ->
  slice (slice s 0 n) 0 k = slice s 0 k.
Proof.
  intros Hk Hn.
  rewrite (slice_0 (slice s 0 n)) by (rewrite slice_0_strlen; lia).
  rewrite !slice_0 by lia.
  apply substring_0_nested. lia.
Qed.

Lemma charAt_slice_0 (s : string) (k n : Z) :
  0 <= k < n -> n <= strlen s -> charAt (slice s 0 n) k = charAt s k.
Proof.
  intros Hk Hn. unfold charAt.
  destruct (k <? 0) eqn:E; [apply Z.ltb_lt in E; lia|].
  rewrite slice_0 by lia. apply get_substring_0. lia.
Qed.

Lemma get_in_range (s : string) (k : nat) (c : ascii) :
  String.get k s = Some c -> (k < String.length s)%nat.
Proof.
  revert k. induction s as [|d s IH]; intros k H; simpl in *;
    [discriminate|].
  destruct k as [|k]; [lia|]. apply IH in H. lia.
Qed.

Lemma lastIndexOfFrom_spec (c : ascii) (s : string) (i acc : Z) :
  lastIndexOfFrom c s i acc = acc \/
  (i <= lastIndexOfFrom c s i acc < i + strlen s /\
   String.get (Z.to_nat (lastIndexOfFrom c s i acc - i)) s = Some c).
Proof.
  revert i acc. induction s as [|d s IH]; intros i acc; simpl;
    [now left|].
  assert (Hlen : strlen (String d s) = strlen s + 1)
    by (unfold strlen; simpl; lia).
  rewrite Hlen.
  destruct (IH (i + 1) (if Ascii.eqb d c then i else acc))
    as [Heq | [Hr Hg]].
  - rewrite Heq. destruct (Ascii.eqb_spec d c) as [->|_]; [right | now left].
    pose proof (strlen_nonneg s). split; [lia|].
    now rewrite Z.sub_diag.
  - right. split; [lia|].
    set (r := lastIndexOfFrom c s (i + 1) _) in *.
    replace (Z.to_nat (r - i)) with (S (Z.to_nat (r - (i + 1)))) by lia.
    exact Hg.
Qed.

Lemma lastIndexOf_spec (s : string) (c : ascii) :
  lastIndexOf s c = -1 \/
  (0 <= lastIndexOf s c < strlen s /\ charAt s (lastIndexOf s c) = Some c).
Proof.
  unfold lastIndexOf.
  destruct (lastIndexOfFrom_spec c s 0 (-1)) as [H | [Hr Hg]];
    [now left | right].
  split; [lia|]. unfold charAt.
  destruct (_ <? 0) eqn:E; [apply Z.ltb_lt in E; lia|].
  now rewrite Z.sub_0_r in Hg.
Qed.

Lemma endsWith_app (a m : string) : endsWith (a ++ m) m = true.
Proof.
  unfold endsWith. rewrite length_app.
  apply andb_true_iff. split; [apply Nat.leb_le; lia|].
  replace (String.length a + String.length m - String.length m)%nat
    with (String.length a) by lia.
  rewrite substring_skip_app, substring_0_all. apply String.eqb_refl.
Qed.

Lemma append_assoc (a b c : string) : (a ++ b) ++ c = a ++ (b ++ c).
Proof. induction a as [|x a IH]; simpl; [reflexivity | now rewrite IH]. Qed.

End StringFacts.

(** ** truncateContext *)

Section TruncateContext.

Import Js promptUtils.

(** The shape of every over-limit result, branch by branch. *)
Lemma truncateContext_over (context : string) (maxLength : Z) :
  maxLength < strlen context ->
  let truncated := slice context 0 maxLength in
  let lastNewline := lastIndexOf truncated LF in
  truncateContext context maxLength =
    if pastThreshold lastNewline maxLength
    then slice truncated 0 lastNewline ++ newlineMarker
    else truncated ++ hardMarker.
Proof.
  intros H. unfold truncateContext.
  destruct (strlen context <=? maxLength) eqn:E;
    [apply Z.leb_le in E; lia | reflexivity].
Qed.

(** In the newline branch the cut lands on a newline of the original
    context, strictly past four fifths of the limit and before it. *)
Lemma newline_cut_position (context : string) (maxLength : Z) :
  0 <= maxLength -> maxLength < strlen context ->
  let lastNewline := lastIndexOf (slice context 0 maxLength) LF in
  pastThreshold lastNewline maxLength = true ->
  4 * maxLength < 5 * lastNewline /\ lastNewline < maxLength /\
  charAt context lastNewline = Some LF.
Proof.
  intros H0 Hlen lastNewline Hp. unfold pastThreshold in Hp.
  apply Z.ltb_lt in Hp.
  destruct (lastIndexOf_spec (slice context 0 maxLength) LF)
    as [Hm | [Hr Hc]]; fold lastNewline in Hm || fold lastNewline in Hr, Hc.
  - lia.
  - rewrite slice_0_strlen in Hr by lia.
    rewrite charAt_slice_0 in Hc by lia. repeat split; try lia; exact Hc.
Qed.

(** C8.  [truncateContext] returns a context no longer than [maxLength]
    unchanged, without any marker, whatever the limit (the default 4000
    included); truncating such a context a second time therefore changes
    nothing either. *)
Theorem truncateContext_within_limit (context : string) (maxLength : Z) :
  strlen context <= maxLength ->
  truncateContext context maxLength = context /\
  truncateContext (truncateContext context maxLength) maxLength
    = truncateContext context maxLength.
Proof.
  intros H.
  assert (E : truncateContext context maxLength = context).
  { unfold truncateContext.
    destruct (strlen context <=? maxLength) eqn:L; [reflexivity|].
    apply Z.leb_gt in L. lia. }
  split; [exact E | now rewrite !E].
Qed.

Lemma truncateContext_within_limit_witness :
  strlen "File: a.md" <= defaultMaxLength /\
  truncateContext "File: a.md" defaultMaxLength = "File: a.md".
Proof.
  split; [vm_compute; discriminate|].
  apply (truncateContext_within_limit "File: a.md" defaultMaxLength).
  vm_compute; discriminate.
Defined.

(** C4, as stated, fails: with limit 5 the context ["abcdef"] is over the
    limit, is cut at the hard limit, and the result does not end with the
    marker of the newline branch. *)
Lemma truncateContext_hard_limit_marker_differs :
  5 < strlen "abcdef" /\
  truncateContext "abcdef" 5 = "abcde... (truncated)" /\
  endsWith (truncateContext "abcdef" 5) newlineMarker = false.
Proof. repeat split. Qed.

(** C4, amended.  For every over-limit context the newline branch appends
    a line feed followed by ["... (truncated)"], the hard-limit branch
    appends ["... (truncated)"] with no line feed before it; in both
    branches the result ends with ["... (truncated)"]. *)
Theorem truncateContext_markers (context : string) (maxLength : Z) :
  maxLength < strlen context ->
  let truncated := slice context 0 maxLength in
  let lastNewline := lastIndexOf truncated LF in
  (pastThreshold lastNewline maxLength = true ->
   truncateContext context maxLength
     = slice truncated 0 lastNewline ++ String LF "... (truncated)") /\
  (pastThreshold lastNewline maxLength = false ->
   truncateContext context maxLength = truncated ++ "... (truncated)") /\
  endsWith (truncateContext context maxLength) "... (truncated)" = true.
Proof.
  intros H truncated lastNewline.
  pose proof (truncateContext_over context maxLength H) as E.
  cbv zeta in E. fold truncated lastNewline in E.
  repeat split.
  - intros Hp. now rewrite E, Hp.
  - intros Hp. now rewrite E, Hp.
  - rewrite E. destruct (pastThreshold lastNewline maxLength).
    + change newlineMarker with (String LF "" ++ hardMarker).
      rewrite <- append_assoc. apply endsWith_app.
    + apply endsWith_app.
Qed.

Lemma truncateContext_markers_witness :
  5 < strlen "abcdef" /\
  endsWith (truncateContext "abcdef" 5) "... (truncated)" = true.
Proof.
  split; [reflexivity|].
  apply (truncateContext_markers "abcdef" 5). reflexivity.
Defined.

(** C5.  For a context strictly longer than [maxLength], the result is
    at most [maxLength] plus the length of the marker long, and it is the
    first [cut] characters of the context followed by a marker, where
    [cut] is either [maxLength] itself or the position of a line feed of
    the context lying at or beyond 80% of [maxLength] and before
    [maxLength]. *)
Theorem truncateContext_bounded_cut (context : string) (maxLength : Z) :
  0 <= maxLength -> maxLength < strlen context ->
  strlen (truncateContext context maxLength)
    <= maxLength + strlen newlineMarker /\
  exists cut marker,
    truncateContext context maxLength = slice context 0 cut ++ marker /\
    strlen (slice context 0 cut) = cut /\
    (marker = newlineMarker \/ marker = hardMarker) /\
    (cut = maxLength \/
     (charAt context cut = Some LF /\
      4 * maxLength <= 5 * cut /\ cut < maxLength)).
Proof.
  intros H0 Hlen.
  pose proof (truncateContext_over context maxLength Hlen) as E.
  cbv zeta in E.
  pose proof (newline_cut_position context maxLength H0 Hlen) as P.
  cbv zeta in P.
  set (lastNewline := lastIndexOf (slice context 0 maxLength) LF) in *.
  destruct (pastThreshold lastNewline maxLength) eqn:Hp.
  - destruct (P eq_refl) as (Hlo & Hhi & Hc).
    assert (Hnn : 0 <= lastNewline) by lia.
    rewrite slice_0_nested in E by lia.
    split.
    + rewrite E, strlen_app, slice_0_strlen by lia. lia.
    + exists lastNewline, newlineMarker.
      repeat split; [exact E | apply slice_0_strlen; lia | now left |].
      right. repeat split; [exact Hc | lia | lia].
  - split.
    + rewrite E, strlen_app, slice_0_strlen by lia.
      change (strlen hardMarker) with 15.
      change (strlen newlineMarker) with 16. lia.
    + exists maxLength, hardMarker.
      repeat split; [exact E | apply slice_0_strlen; lia | now right |].
      now left.
Qed.

Lemma truncateContext_bounded_cut_witness :
  strlen (truncateContext (String LF "abcdefghi" ++ String LF "xyz") 12)
    <= 12 + strlen newlineMarker.
Proof.
  apply (truncateContext_bounded_cut
           (String LF "abcdefghi" ++ String LF "xyz") 12);
    [discriminate | reflexivity].
Defined.

End TruncateContext.

(** ** isTextFile *)

Section IsTextFile.

Import Js path fileUtils Lexical.

Lemma list_ascii_of_string_app (a b : string) :
  list_ascii_of_string (a ++ b)
  = (list_ascii_of_string a ++ list_ascii_of_string b)%list.
Proof. induction a as [|c a IH]; simpl; [reflexivity | now rewrite IH]. Qed.

Lemma extChar_plain (c : ascii) (i : Z) (st : ExtState) :
  plainChar c = true -> beforeDot st -> beforeDot (extChar c i st).
Proof.
  intros Hc (Hs & Hp & He). unfold plainChar in Hc.
  apply andb_true_iff in Hc as [Hd _]. apply negb_true_iff in Hd.
  unfold extChar, beforeDot. rewrite Hd.
  destruct (endPos st =? -1) eqn:E; simpl; rewrite Hs; simpl.
  - auto.
  - destruct He as [He|He]; [rewrite He in E; discriminate | auto].
Qed.

Lemma extLoop_plain (l rest : list ascii) (i : Z) (st : ExtState) :
  forallb plainChar l = true -> beforeDot st ->
  exists st',
    extLoop (l ++ rest) i st = extLoop rest (i - Z.of_nat (List.length l)) st'
    /\ beforeDot st'.
Proof.
  revert i st. induction l as [|c l IH]; intros i st Hl Hst.
  - exists st. simpl. now rewrite Z.sub_0_r.
  - simpl in Hl. apply andb_true_iff in Hl as [Hc Hl].
    assert (Hs : isSlash c = false).
    { unfold plainChar in Hc. apply andb_true_iff in Hc as [_ Hs].
      now apply negb_true_iff in Hs. }
    destruct (IH (i - 1) (extChar c i st) Hl (extChar_plain c i st Hc Hst))
      as (st' & E & Hst').
    exists st'. split; [|exact Hst'].
    cbn [app extLoop]. rewrite Hs, E. f_equal.
    cbn [List.length]. lia.
Qed.

(** Meeting the first dot leaves the pre-dot state at 0 and the trailing
    separators over. *)
Lemma extChar_first_dot (i : Z) (st : ExtState) :
  beforeDot st ->
  preDotState (extChar "." i st) = 0 /\
  matchedSlash (extChar "." i st) = false.
Proof.
  intros (Hs & Hp & He). unfold extChar. simpl isDot. cbv iota.
  destruct (endPos st =? -1) eqn:E; simpl; rewrite Hs; simpl.
  - auto.
  - destruct He as [He|He]; [rewrite He in E; discriminate | auto].
Qed.

Lemma extname_of_state (p : string) (st : ExtState) :
  extLoop (rev (list_ascii_of_string p)) (strlen p - 1) extInit = st ->
  preDotState st = 0 -> extname p = "".
Proof.
  intros E H. unfold extname. rewrite E, H.
  rewrite Z.eqb_refl, !orb_true_r. reflexivity.
Qed.

Lemma beforeDot_init : beforeDot extInit.
Proof. unfold beforeDot; simpl; auto. Qed.

Lemma extname_dotfile (s : string) :
  plainName s = true -> extname (String "." s) = "".
Proof.
  intros Hs. unfold plainName in Hs.
  assert (Hr : forallb plainChar (rev (list_ascii_of_string s)) = true).
  { rewrite forallb_forall in *. intros c Hc. apply Hs.
    now apply in_rev. }
  destruct (extLoop_plain _ ["."%char] (strlen (String "." s) - 1) extInit
              Hr beforeDot_init) as (st' & E & Hst').
  eapply extname_of_state.
  - cbn [list_ascii_of_string rev]. rewrite E. reflexivity.
  - cbn [extLoop]. change (isSlash ".") with false. cbv iota.
    apply extChar_first_dot, Hst'.
Qed.

Lemma extname_dotfile_in_dir (dir s : string) :
  plainName s = true -> extname (dir ++ String "/" (String "." s)) = "".
Proof.
  intros Hs. unfold plainName in Hs.
  assert (Hr : forallb plainChar (rev (list_ascii_of_string s)) = true).
  { rewrite forallb_forall in *. intros c Hc. apply Hs.
    now apply in_rev. }
  set (p := dir ++ String "/" (String "." s)).
  destruct (extLoop_plain _ ("."%char :: "/"%char
                               :: rev (list_ascii_of_string dir))
              (strlen p - 1) extInit Hr beforeDot_init)
    as (st' & E & Hst').
  eapply extname_of_state.
  - unfold p at 1. rewrite list_ascii_of_string_app.
    cbn [list_ascii_of_string]. rewrite rev_app_distr.
    cbn [rev]. rewrite <- !app_assoc. cbn [app]. rewrite E. reflexivity.
  - cbn [extLoop]. change (isSlash ".") with false.
    change (isSlash "/") with true. cbv iota.
    destruct (extChar_first_dot (strlen p - 1 -
                Z.of_nat (List.length (rev (list_ascii_of_string s)))) st' Hst')
      as [Hp Hm].
    rewrite Hm. simpl. exact Hp.
Qed.

(** C10.  For a name made of one leading dot followed by characters that
    are neither dots nor separators (the bare name [".env"], for one),
    the final-extension computation yields the empty string and
    [isTextFile] returns [false], although [".env"] is in the list of
    recognised extensions; the same holds when the name is the last
    component of a longer path. *)
Theorem isTextFile_dotfile_rejected (s : string) :
  plainName s = true ->
  path.extname (String "." s) = "" /\
  isTextFile (String "." s) = false /\
  (forall dir, isTextFile (dir ++ String "/" (String "." s)) = false) /\
  includes textExtensions ".env" = true.
Proof.
  intros Hs. repeat split.
  - now apply extname_dotfile.
  - unfold isTextFile. now rewrite extname_dotfile.
  - intros dir. unfold isTextFile. now rewrite extname_dotfile_in_dir.
Qed.

Lemma isTextFile_dotfile_rejected_witness :
  plainName "env" = true /\ isTextFile ".env" = false.
Proof.
  split; [reflexivity|].
  exact (proj1 (proj2 (isTextFile_dotfile_rejected "env" eq_refl))).
Defined.

End IsTextFile.

(** ** sanitizePath *)

Section SplitJoin.

Import Js path Lexical.

Lemma splitSlash_cons (s : string) : exists h t, splitSlash s = h :: t.
Proof.
  induction s as [|c s IH]; simpl; [eauto|].
  destruct (isSlash c); [eauto|].
  destruct IH as (h & t & ->). eauto.
Qed.

Lemma splitSlash_app_slash (a b : string) :
  splitSlash (a ++ String "/" b) = (splitSlash a ++ splitSlash b)%list.
Proof.
  induction a as [|c a IH]; simpl; [reflexivity|].
  rewrite IH. destruct (isSlash c); [reflexivity|].
  destruct (splitSlash_cons a) as (h & t & ->). reflexivity.
Qed.

Lemma splitSlash_slashFree (s : string) :
  Forall (fun seg => slashFree seg = true) (splitSlash s).
Proof.
  induction s as [|c s IH]; simpl; [repeat constructor|].
  destruct (isSlash c) eqn:E; [constructor; [reflexivity | exact IH]|].
  destruct (splitSlash s) as [|h t].
  { constructor; [unfold slashFree; simpl; now rewrite E | constructor]. }
  inversion IH as [|? ? Hh Ht]; subst.
  constructor; [|exact Ht]. unfold slashFree in *. simpl. now rewrite E.
Qed.

Lemma splitSlash_of_slashFree (s : string) :
  slashFree s = true -> splitSlash s = [s].
Proof.
  unfold slashFree. induction s as [|c s IH]; simpl; [reflexivity|].
  intros H. apply andb_true_iff in H as [Hc Hs].
  apply negb_true_iff in Hc. rewrite Hc, (IH Hs). reflexivity.
Qed.

Lemma joinSlash_cons2 (x y : string) (l : list string) :
  joinSlash (x :: y :: l) = x ++ String "/" (joinSlash (y :: l)).
Proof. reflexivity. Qed.

Lemma splitSlash_joinSlash (l : list string) :
  l <> [] -> Forall (fun seg => slashFree seg = true) l ->
  splitSlash (joinSlash l) = l.
Proof.
  induction l as [|x l IH]; [congruence|]. intros _ H.
  inversion H as [|? ? Hx Hl]; subst.
  destruct l as [|y l]; [now apply splitSlash_of_slashFree|].
  rewrite joinSlash_cons2, splitSlash_app_slash, (splitSlash_of_slashFree x Hx).
  rewrite IH; [reflexivity | discriminate | exact Hl].
Qed.

Lemma append_nil_r (s : string) : s ++ "" = s.
Proof. induction s as [|c s IH]; simpl; [reflexivity | now rewrite IH]. Qed.

Lemma isAbsolute_split (s : string) :
  isAbsolute s = true -> exists h t, splitSlash s = "" :: h :: t.
Proof.
  destruct s as [|c s]; simpl; [discriminate|]. intros ->.
  destruct (splitSlash_cons s) as (h & t & ->). eauto.
Qed.

Lemma noBackslash_app (a b : string) :
  noBackslash (a ++ b) = noBackslash a && noBackslash b.
Proof.
  unfold noBackslash.
  induction a as [|c a IH]; simpl; [reflexivity|].
  now rewrite IH, andb_assoc.
Qed.

Lemma splitSlash_noBackslash (s : string) :
  noBackslash s = true ->
  Forall (fun seg => noBackslash seg = true) (splitSlash s).
Proof.
  unfold noBackslash.
  induction s as [|c s IH]; simpl; [repeat constructor|].
  intros H. apply andb_true_iff in H as [Hc Hs]. specialize (IH Hs).
  destruct (isSlash c); [constructor; [reflexivity | exact IH]|].
  destruct (splitSlash s) as [|h t].
  { constructor; [simpl; now rewrite Hc | constructor]. }
  inversion IH as [|? ? Hh Ht]; subst.
  constructor; [|exact Ht]. simpl. now rewrite Hc.
Qed.

Lemma joinSlash_noBackslash (l : list string) :
  Forall (fun seg => noBackslash seg = true) l ->
  noBackslash (joinSlash l) = true.
Proof.
  induction l as [|x l IH]; [reflexivity|]. intros H.
  inversion H as [|? ? Hx Hl]; subst.
  destruct l as [|y l]; [exact Hx|].
  rewrite joinSlash_cons2, noBackslash_app, Hx.
  change (String "/" (joinSlash (y :: l))) with ("/" ++ joinSlash (y :: l)).
  rewrite noBackslash_app, (IH Hl). reflexivity.
Qed.

End SplitJoin.

Section StripTraversal.

Import Js path fileUtils Lexical.

Lemma noBackslash_cons (c : ascii) (s : string) :
  noBackslash (String c s) = negb (Ascii.eqb c "\") && noBackslash s.
Proof. reflexivity. Qed.

(** On a path without backslashes the anchored replacement works piece by
    piece. *)
Lemma strip_pieces_bounded (n : nat) :
  forall s, (String.length s <= n)%nat -> noBackslash s = true ->
  splitSlash (stripLeadingTraversal s) = dropLeadingParents (splitSlash s).
Proof.
  induction n as [|n IH]; intros s Hn Hs.
  - destruct s; [reflexivity | simpl in Hn; lia].
  - destruct s as [|c1 [|c2 rest]].
    + reflexivity.
    + simpl. destruct (isSlash c1); [reflexivity|]. simpl.
      destruct (Ascii.eqb c1 "."); reflexivity.
    + cbn [stripLeadingTraversal].
      destruct (Ascii.eqb c1 "." && Ascii.eqb c2 ".") eqn:E.
      * apply andb_true_iff in E as [E1 E2].
        apply Ascii.eqb_eq in E1, E2. subst c1 c2.
        destruct rest as [|c r]; [reflexivity|].
        rewrite !noBackslash_cons in Hs. simpl in Hs.
        apply andb_true_iff in Hs as [Hc Hr]. apply negb_true_iff in Hc.
        rewrite Hc, orb_false_r.
        change (Ascii.eqb c "/") with (isSlash c).
        cbn [splitSlash]. change (isSlash ".") with false. cbv iota.
        destruct (isSlash c) eqn:Ec.
        -- rewrite IH; [|simpl in Hn; lia | exact Hr].
           destruct (splitSlash_cons r) as (h & t & ->). reflexivity.
        -- cbn [splitSlash]. change (isSlash ".") with false. cbv iota.
           rewrite Ec.
           destruct (splitSlash_cons r) as (h & t & ->). reflexivity.
      * cbn [splitSlash].
        destruct (isSlash c1); [reflexivity|].
        destruct (isSlash c2); [simpl; destruct (Ascii.eqb c1 "."); reflexivity|].
        destruct (splitSlash_cons rest) as (h & t & ->).
        simpl. destruct (Ascii.eqb c1 "."), (Ascii.eqb c2 ".");
          simpl in E; try discriminate; reflexivity.
Qed.

Lemma strip_pieces (s : string) :
  noBackslash s = true ->
  splitSlash (stripLeadingTraversal s) = dropLeadingParents (splitSlash s).
Proof. apply (strip_pieces_bounded (String.length s)). lia. Qed.

Lemma dropLeadingParents_shape (k : nat) (m : list string) :
  forallb notParent m = true -> relativePieces m ->
  forallb notParent (dropLeadingParents (repeat ".." k ++ m)) = true /\
  relativePieces (dropLeadingParents (repeat ".." k ++ m)).
Proof.
  intros Hm Hr. induction k as [|k IH].
  - simpl. destruct m as [|h t]; [split; [reflexivity | exact I]|].
    simpl in Hm. apply andb_true_iff in Hm as [Hh Ht].
    unfold notParent in Hh. apply negb_true_iff in Hh.
    cbn [dropLeadingParents]. rewrite Hh.
    split; [|exact Hr]. simpl. unfold notParent at 1. now rewrite Hh.
  - cbn [repeat app dropLeadingParents]. simpl String.eqb. cbv iota.
    destruct (repeat ".." k ++ m)%list as [|x l] eqn:E.
    + split; [reflexivity | exact I].
    + exact IH.
Qed.

End StripTraversal.

Section Normalisation.

Import Js path fileUtils Lexical.

Lemma kept_or_dropped (seg : string) :
  (String.eqb seg "" || String.eqb seg ".") = negb (keptSegment seg).
Proof.
  unfold keptSegment, nonEmpty.
  destruct (String.eqb seg ""), (String.eqb seg "."); reflexivity.
Qed.

(** With [allowAboveRoot], the kept pieces are always some [".."] followed
    by pieces that name entries. *)
Lemma pushSegment_shape (seg : string) (bodyRev : list string) (k : nat) :
  forallb goodSegment bodyRev = true ->
  exists bodyRev' k',
    pushSegment true (bodyRev ++ repeat ".." k) seg
      = (bodyRev' ++ repeat ".." k')%list
    /\ forallb goodSegment bodyRev' = true.
Proof.
  intros Hb. unfold pushSegment. rewrite kept_or_dropped.
  destruct (keptSegment seg) eqn:Ek; simpl negb; cbv iota.
  2:{ exists bodyRev, k. auto. }
  destruct (String.eqb seg "..") eqn:Ep.
  - destruct bodyRev as [|b bs].
    + destruct k as [|k].
      * exists [], 1%nat. auto.
      * exists [], (S (S k)). auto.
    + simpl in Hb. apply andb_true_iff in Hb as [Hg Hbs].
      unfold goodSegment, notParent in Hg.
      apply andb_true_iff in Hg as [_ Hg]. apply negb_true_iff in Hg.
      cbn [app]. rewrite Hg. exists bs, k. auto.
  - exists (seg :: bodyRev), k. split; [reflexivity|].
    simpl. unfold goodSegment at 1, notParent. now rewrite Ek, Ep, Hb.
Qed.

Lemma fold_pushSegment_shape (segs bodyRev : list string) (k : nat) :
  forallb goodSegment bodyRev = true ->
  exists bodyRev' k',
    fold_left (pushSegment true) segs (bodyRev ++ repeat ".." k)%list
      = (bodyRev' ++ repeat ".." k')%list
    /\ forallb goodSegment bodyRev' = true.
Proof.
  revert bodyRev k. induction segs as [|seg segs IH]; intros bodyRev k Hb.
  - exists bodyRev, k. auto.
  - destruct (pushSegment_shape seg bodyRev k Hb) as (b' & k' & E & Hb').
    simpl. rewrite E. apply IH, Hb'.
Qed.

(** Whatever holds of [".."] and of the incoming pieces holds of the kept
    ones. *)
Lemma fold_pushSegment_Forall (Q : string -> Prop) (a : bool)
      (segs stack : list string) :
  Q ".." -> Forall Q segs -> Forall Q stack ->
  Forall Q (fold_left (pushSegment a) segs stack).
Proof.
  intros Hd. revert stack.
  induction segs as [|seg segs IH]; intros stack Hs Hst; [exact Hst|].
  inversion Hs as [|? ? Hseg Hsegs]; subst. simpl. apply IH; [exact Hsegs|].
  unfold pushSegment.
  destruct (String.eqb seg "" || String.eqb seg "."); [exact Hst|].
  destruct (String.eqb seg "..").
  - destruct stack as [|top below].
    + destruct a; repeat constructor; exact Hd.
    + inversion Hst; subst.
      destruct (String.eqb top ".."); [destruct a|]; auto.
  - constructor; assumption.
Qed.

(** Without any [".."] among the pieces, normalisation only filters. *)
Lemma fold_pushSegment_noParent (a : bool) (l stack : list string) :
  forallb notParent l = true ->
  fold_left (pushSegment a) l stack
    = (rev (filter keptSegment l) ++ stack)%list.
Proof.
  revert stack. induction l as [|seg l IH]; intros stack H; [reflexivity|].
  simpl in H. apply andb_true_iff in H as [Hp Hl].
  unfold notParent in Hp. apply negb_true_iff in Hp.
  simpl. rewrite IH by exact Hl.
  unfold pushSegment. rewrite kept_or_dropped, Hp.
  destruct (keptSegment seg); simpl; [|reflexivity].
  now rewrite <- app_assoc.
Qed.

Lemma joinSlash_not_empty (x : string) (l : list string) :
  x <> "" -> String.eqb (joinSlash (x :: l)) "" = false.
Proof.
  intros Hx. destruct x as [|c x]; [congruence|].
  destruct l; reflexivity.
Qed.

Lemma goodSegment_not_empty (seg : string) :
  goodSegment seg = true -> seg <> "".
Proof.
  unfold goodSegment, keptSegment, nonEmpty. intros H ->. discriminate.
Qed.

Lemma goodSegment_notParent (l : list string) :
  forallb goodSegment l = true -> forallb notParent l = true.
Proof.
  rewrite !forallb_forall. intros H x Hx. specialize (H x Hx).
  unfold goodSegment in H. now apply andb_true_iff in H as [_ H].
Qed.

End Normalisation.

Section SanitizePath.

Import Js path fileUtils Lexical.

Lemma splitSlash_clean (s : string) :
  noBackslash s = true -> Forall cleanPiece (splitSlash s).
Proof.
  intros H. apply Forall_forall. intros seg Hin. split.
  - exact (proj1 (Forall_forall _ _) (splitSlash_slashFree s) seg Hin).
  - exact (proj1 (Forall_forall _ _) (splitSlash_noBackslash s H) seg Hin).
Qed.

(** The pieces of a normalised relative path: leading [".."], then pieces
    that climb nowhere and do not start an absolute path. *)
Lemma normalize_pieces (input : string) :
  isAbsolute input = false -> noBackslash input = true ->
  exists k m,
    splitSlash (normalize input) = (repeat ".." k ++ m)%list /\
    forallb notParent m = true /\ relativePieces m /\
    noBackslash (normalize input) = true.
Proof.
  intros Hrel Hnb. unfold normalize.
  destruct (String.eqb input "").
  { exists 0%nat, ["."]. repeat split. }
  rewrite Hrel. simpl negb. cbv iota.
  unfold normalizeString, normalizeSegments.
  destruct (fold_pushSegment_shape (splitSlash input) [] 0 eq_refl)
    as (bodyRev & k & E & Hgood).
  assert (Hclean : Forall cleanPiece
                     (fold_left (pushSegment true) (splitSlash input) [])).
  { apply fold_pushSegment_Forall;
      [split; reflexivity | now apply splitSlash_clean | constructor]. }
  simpl app in E. rewrite E in *. clear E.
  rewrite rev_app_distr, rev_repeat.
  apply Forall_rev in Hclean. rewrite rev_app_distr, rev_repeat in Hclean.
  set (body := rev bodyRev) in *.
  assert (Hbody : forallb goodSegment body = true).
  { unfold body. rewrite forallb_forall in *. intros x Hx.
    apply Hgood. now apply in_rev. }
  clearbody body. clear Hgood bodyRev.
  remember (repeat ".." k ++ body)%list as kept eqn:EK.
  destruct kept as [|x l].
  - (* nothing is left of the input *)
    simpl. destruct (hasTrailingSlash input).
    + exists 0%nat, ["."; ""]. repeat split. intros E; discriminate.
    + exists 0%nat, ["."]. repeat split.
  - assert (Hx : x <> "").
    { destruct k as [|k]; simpl in EK.
      - rewrite <- EK in Hbody. simpl in Hbody.
        apply andb_true_iff in Hbody as [Hx _].
        now apply goodSegment_not_empty.
      - injection EK as -> _. discriminate. }
    rewrite (joinSlash_not_empty x l Hx).
    change ("" ++ ?s) with s.
    assert (Hsplit : splitSlash (joinSlash (x :: l)) = x :: l).
    { apply splitSlash_joinSlash; [discriminate|].
      apply Forall_forall. intros y Hy.
      exact (proj1 (proj1 (Forall_forall _ _) Hclean y Hy)). }
    assert (Hnbk : noBackslash (joinSlash (x :: l)) = true).
    { apply joinSlash_noBackslash. apply Forall_forall. intros y Hy.
      exact (proj2 (proj1 (Forall_forall _ _) Hclean y Hy)). }
    assert (Hrelb : forall trail,
               forallb notParent trail = true ->
               (trail = [] \/ trail = [""]) ->
               forallb notParent (body ++ trail) = true /\
               relativePieces (body ++ trail)).
    { intros trail Ht Hcase. split.
      - rewrite forallb_app, Ht, (goodSegment_notParent body Hbody).
        reflexivity.
      - destruct body as [|b bs].
        + destruct Hcase as [-> | ->]; exact I.
        + simpl in Hbody. apply andb_true_iff in Hbody as [Hb _].
          simpl. destruct (bs ++ trail)%list; [exact I|].
          now apply goodSegment_not_empty. }
    destruct (hasTrailingSlash input).
    + exists k, (body ++ [""])%list.
      destruct (Hrelb [""] eq_refl (or_intror eq_refl)) as [H1 H2].
      repeat split; try assumption.
      * change (joinSlash (x :: l) ++ "/")
          with (joinSlash (x :: l) ++ String "/" "").
        rewrite splitSlash_app_slash, Hsplit. simpl splitSlash.
        now rewrite EK, app_assoc.
      * rewrite noBackslash_app, Hnbk. reflexivity.
    + exists k, body.
      destruct (Hrelb [] eq_refl (or_introl eq_refl)) as [H1 H2].
      rewrite app_nil_r in H1, H2. rewrite append_nil_r.
      repeat split; try assumption. now rewrite Hsplit.
Qed.

Lemma segments_notParent (cwd : string) :
  forallb properSegment (segments cwd) = true ->
  forallb notParent (splitSlash cwd) = true.
Proof.
  unfold segments. rewrite !forallb_forall. intros H seg Hin.
  destruct (nonEmpty seg) eqn:E.
  - assert (Hf : In seg (filter nonEmpty (splitSlash cwd)))
      by (apply filter_In; auto).
    specialize (H seg Hf). unfold properSegment in H.
    now apply andb_true_iff in H as [_ H].
  - unfold nonEmpty in E. apply negb_false_iff, String.eqb_eq in E.
    now subst seg.
Qed.

Lemma segments_kept (l : list string) :
  forallb properSegment (filter nonEmpty l) = true ->
  filter keptSegment l = filter nonEmpty l.
Proof.
  induction l as [|seg l IH]; [reflexivity|]. simpl.
  unfold keptSegment at 1. destruct (nonEmpty seg); simpl.
  - intros H. apply andb_true_iff in H as [Hp Hl].
    unfold properSegment in Hp. apply andb_true_iff in Hp as [Hp _].
    rewrite Hp, (IH Hl). reflexivity.
  - exact IH.
Qed.

Lemma isPrefixOf_app (a b : list string) : isPrefixOf a (a ++ b) = true.
Proof.
  induction a as [|x a IH]; [reflexivity|].
  simpl. now rewrite String.eqb_refl, IH.
Qed.

Lemma filter_nonEmpty_kept (l : list string) :
  filter nonEmpty (filter keptSegment l) = filter keptSegment l.
Proof.
  induction l as [|seg l IH]; [reflexivity|]. simpl.
  destruct (keptSegment seg) eqn:E; [|exact IH].
  simpl. unfold keptSegment in E. apply andb_true_iff in E as [-> _].
  now rewrite IH.
Qed.

(** The last step of [resolve]: normalising, below the root, a path whose
    pieces are those of the working directory followed by pieces that
    climb nowhere. *)
Lemma resolved_inside (cwd p : string) (m : list string) :
  resolvedDirectory cwd = true ->
  splitSlash p = (splitSlash cwd ++ m)%list ->
  forallb notParent m = true ->
  lexicallyInside cwd (String "/" (normalizeString p false)) = true.
Proof.
  intros Hcwd Hp Hm.
  unfold resolvedDirectory in Hcwd. apply andb_true_iff in Hcwd as [_ Hcwd].
  pose proof (segments_notParent cwd Hcwd) as Hnp.
  assert (Hall : forallb notParent (splitSlash p) = true)
    by (rewrite Hp, forallb_app, Hnp, Hm; reflexivity).
  unfold normalizeString, normalizeSegments.
  rewrite (fold_pushSegment_noParent false _ [] Hall).
  rewrite app_nil_r, rev_involutive.
  set (kept := filter keptSegment (splitSlash p)).
  assert (Hseg : segments (String "/" (joinSlash kept)) = kept).
  { unfold segments. cbn [splitSlash]. change (isSlash "/") with true.
    cbv iota. cbn [filter]. change (nonEmpty "") with false. cbv iota.
    destruct kept as [|x l] eqn:EK; [reflexivity|].
    rewrite splitSlash_joinSlash; [| discriminate |].
    - rewrite <- EK. apply filter_nonEmpty_kept.
    - rewrite <- EK. apply Forall_forall. intros y Hy.
      apply filter_In in Hy as [Hy _].
      exact (proj1 (Forall_forall _ _) (splitSlash_slashFree p) y Hy). }
  unfold lexicallyInside. rewrite Hseg. cbn [isAbsolute].
  change (isSlash "/") with true. cbn [andb].
  apply andb_true_iff. split.
  - apply forallb_forall. intros y Hy. apply filter_In in Hy as [Hy Hk].
    rewrite forallb_forall in Hall. specialize (Hall y Hy).
    unfold keptSegment in Hk. apply andb_true_iff in Hk as [_ Hk].
    unfold properSegment. unfold notParent in Hall. now rewrite Hk, Hall.
  - unfold kept. rewrite Hp, filter_app.
    rewrite (segments_kept (splitSlash cwd) Hcwd).
    apply isPrefixOf_app.
Qed.

Lemma relativePieces_not_absolute (s : string) :
  relativePieces (splitSlash s) -> isAbsolute s = false.
Proof.
  intros H. destruct (isAbsolute s) eqn:E; [|reflexivity].
  destruct (isAbsolute_split s E) as (h & t & Es).
  rewrite Es in H. simpl in H. congruence.
Qed.

(** C1, as stated, fails: an absolute input is returned as it is, outside
    the working directory. *)
Lemma sanitizePath_absolute_input_escapes :
  resolvedDirectory "/srv/app" = true /\
  sanitizePath "/srv/app" "/etc/passwd" = "/etc/passwd" /\
  lexicallyInside "/srv/app" (sanitizePath "/srv/app" "/etc/passwd") = false.
Proof. repeat split. Qed.

(** A backslash is no separator for [normalize], yet the replacement takes
    it for one: behind a piece spelt dot, dot, backslash, what is left may
    begin with a separator. *)
Example sanitizePath_backslash_piece :
  sanitizePath "/srv/app" "..\/etc/passwd" = "/etc/passwd".
Proof. reflexivity. Qed.

(** An absolute input is resolved on its own: the working directory plays
    no part in the result. *)
Lemma sanitizePath_absolute_ignores_cwd (cwd cwd' inputPath : string) :
  isAbsolute inputPath = true ->
  sanitizePath cwd inputPath = sanitizePath cwd' inputPath.
Proof.
  intros Habs. unfold sanitizePath.
  assert (Hn : exists rest, normalize inputPath = String "/" rest).
  { unfold normalize. destruct inputPath as [|c r]; [discriminate|].
    simpl String.eqb. cbv iota. rewrite Habs.
    destruct (String.eqb _ ""); eexists; reflexivity. }
  destruct Hn as (rest & ->).
  assert (Hs : stripLeadingTraversal (String "/" rest) = String "/" rest)
    by (destruct rest; reflexivity).
  rewrite Hs. reflexivity.
Qed.

(** C1, amended.  For every input that is a relative path (it does not
    begin with a separator) and holds no backslash, whatever the number of
    its leading [../] pieces, the result of [sanitizePath] is an absolute
    path without ["."] or [".."] pieces whose first pieces are those of the
    working directory: it lies lexically inside it. *)
Theorem sanitizePath_relative_inside (cwd inputPath : string) :
  resolvedDirectory cwd = true ->
  path.isAbsolute inputPath = false ->
  noBackslash inputPath = true ->
  lexicallyInside cwd (sanitizePath cwd inputPath) = true.
Proof.
  intros Hcwd Hrel Hnb.
  destruct (normalize_pieces inputPath Hrel Hnb) as (k & m & En & Hm & Hr & Hn).
  set (stripped := stripLeadingTraversal (normalize inputPath)).
  assert (Es : splitSlash stripped
               = dropLeadingParents (repeat ".." k ++ m))
    by (unfold stripped; rewrite strip_pieces, En; auto).
  destruct (dropLeadingParents_shape k m Hm Hr) as [Hnp Hrp].
  rewrite <- Es in Hnp, Hrp.
  pose proof (relativePieces_not_absolute stripped Hrp) as Hsrel.
  assert (Habs : isAbsolute cwd = true).
  { unfold resolvedDirectory in Hcwd. now apply andb_true_iff in Hcwd as [H _]. }
  assert (Hne : String.eqb cwd "" = false)
    by (destruct cwd; [discriminate | reflexivity]).
  unfold sanitizePath. fold stripped. unfold resolve.
  cbn [rev app resolveLoop].
  destruct (String.eqb stripped "") eqn:Ee.
  - rewrite Hne, Habs.
    apply (resolved_inside cwd _ [""]); [exact Hcwd | | reflexivity].
    change (cwd ++ "/" ++ "") with (cwd ++ String "/" "").
    now rewrite splitSlash_app_slash.
  - rewrite Hsrel, Hne, Habs.
    apply (resolved_inside cwd _ (splitSlash stripped ++ [""])%list);
      [exact Hcwd | | now rewrite forallb_app, Hnp].
    change (cwd ++ "/" ++ (stripped ++ "/" ++ ""))
      with (cwd ++ String "/" (stripped ++ String "/" "")).
    now rewrite !splitSlash_app_slash.
Qed.

Lemma sanitizePath_relative_inside_witness :
  lexicallyInside "/srv/app" (sanitizePath "/srv/app" "../../../etc/passwd")
    = true /\
  sanitizePath "/srv/app" "../../../etc/passwd" = "/srv/app/etc/passwd".
Proof.
  split; [|reflexivity].
  apply (sanitizePath_relative_inside "/srv/app" "../../../etc/passwd");
    reflexivity.
Defined.

End SanitizePath.

(** ** getContextFromPath *)

Section Aggregation.

Import Exn FileSystemTools Samples.

Variable fs : FsApi.

(** On a single file: one record, carrying the text of the file. *)
Lemma getContextFromPath_file (p content : string) (st : Stats) :
  stat fs p = inr st -> isDirectory st = false ->
  readFileUtf8 fs p = inr content ->
  getContextFromPath fs p
    = inr [mkFileInfo (path.basename p) p file (Some content)].
Proof.
  intros Hs Hd Hr. unfold getContextFromPath, readFile.
  now rewrite Hs, Hd, Hr.
Qed.

(** On a directory: one record per entry listed, none of them with a
    content, files included; nothing below the entries is visited. *)
Lemma getContextFromPath_directory
      (p : string) (st : Stats) (entries : list Dirent) :
  stat fs p = inr st -> isDirectory st = true ->
  readdir fs p = inr entries ->
  getContextFromPath fs p = inr (map (entryInfo p) entries) /\
  Forall (fun info => fiContent info = None) (map (entryInfo p) entries).
Proof.
  intros Hs Hd Hr. unfold getContextFromPath, readDirectory.
  rewrite Hs, Hd, Hr. split; [reflexivity|].
  apply Forall_forall. intros info Hin.
  apply in_map_iff in Hin as (entry & <- & _). reflexivity.
Qed.

(** C7, amended.  A failure of [stat] (a missing path, for one) leaves
    [getContextFromPath] as the value [stat] raised, untouched; a failure
    of [readdir] or of [readFile] leaves it as a plain [Error] whose message
    is ["Failed to read directory: "] or ["Failed to read file: "] followed
    by the message of the underlying failure. *)
Theorem getContextFromPath_failures (p : string) :
  (forall e, stat fs p = inl e -> getContextFromPath fs p = inl e) /\
  (forall st e,
      stat fs p = inr st -> isDirectory st = true ->
      readdir fs p = inl e ->
      getContextFromPath fs p
        = inl (newError ("Failed to read directory: " ++ messageOf e))) /\
  (forall st e,
      stat fs p = inr st -> isDirectory st = false ->
      readFileUtf8 fs p = inl e ->
      getContextFromPath fs p
        = inl (newError ("Failed to read file: " ++ messageOf e))).
Proof.
  unfold getContextFromPath, readDirectory, readFile. repeat split.
  - intros e ->. reflexivity.
  - intros st e -> -> ->. reflexivity.
  - intros st e -> -> ->. reflexivity.
Qed.

End Aggregation.

Section AggregationExamples.

Import Exn FileSystemTools Samples.

Example getContextFromPath_single_file :
  getContextFromPath sampleFs "/srv/app/storage/notes.md"
  = inr [mkFileInfo "notes.md" "/srv/app/storage/notes.md" file
                    (Some "hello world")].
Proof. reflexivity. Qed.

(** C2, on a directory.  The storage directory holds the file [notes.md],
    whose text is ["hello world"], and a subdirectory; aggregation returns
    one record per entry, and the record of the file has no content. *)
Theorem getContextFromPath_directory_file_without_content :
  readFileUtf8 sampleFs "/srv/app/storage/notes.md" = inr "hello world" /\
  getContextFromPath sampleFs "/srv/app/storage"
  = inr [ mkFileInfo "notes.md" "/srv/app/storage/notes.md" file None;
          mkFileInfo "sub" "/srv/app/storage/sub" directory None ].
Proof. split; reflexivity. Qed.

(** C7, as stated, fails: a missing path, an unreadable file and a failing
    read all surface as instances of the one class [Error]; the two
    read failures carry no code, only a message. *)
Lemma getContextFromPath_failures_one_class :
  let missing := getContextFromPath sampleFs "/srv/app/nowhere" in
  let unreadable := getContextFromPath sampleFs "/srv/app/storage/secret.txt" in
  let failing := getContextFromPath sampleFs "/srv/app/storage/broken.txt" in
  (exists e, missing = inl e /\ classOf e = Some "Error"
             /\ classOf e <> Some "NotFoundError") /\
  (exists e, unreadable = inl e /\ classOf e = Some "Error"
             /\ classOf e <> Some "PermissionError" /\ codeOf e = None) /\
  (exists e, failing = inl e /\ classOf e = Some "Error"
             /\ classOf e <> Some "ReadError" /\ codeOf e = None).
Proof.
  cbv zeta. repeat split; eexists; repeat split; discriminate.
Qed.

Lemma getContextFromPath_failures_witness :
  getContextFromPath sampleFs "/srv/app/storage/secret.txt"
  = inl (newError
           ("Failed to read file: EACCES: permission denied, open "
            ++ "'/srv/app/storage/secret.txt'")).
Proof.
  exact (proj2 (proj2 (getContextFromPath_failures
                         sampleFs "/srv/app/storage/secret.txt"))
               (mkStats false)
               (eacces "open" "/srv/app/storage/secret.txt")
               eq_refl eq_refl eq_refl).
Defined.

End AggregationExamples.

(** ** queryOllama and queryTogether *)

Section ProviderGateway.

Import Exn Json ModelInterface Samples.

Variable config : Config.
Variable backend : Backend.
Variables prompt context : string.

(** A rejected request is turned into data by both variants. *)
Lemma queryOllama_rejected (e : Thrown) :
  backend (ollamaRequest config prompt context) = Rejected e ->
  queryOllama config backend prompt context
    = mkLLMResponse (VStr "") "ollama" (Some (messageOf e)).
Proof.
  intros H. unfold queryOllama, queryOllamaTry. now rewrite H.
Qed.

Lemma queryTogether_rejected (e : Thrown) :
  backend (togetherRequest config prompt context) = Rejected e ->
  queryTogether config backend prompt context
    = mkLLMResponse (VStr "") "together" (Some (messageOf e)).
Proof.
  intros H. unfold queryTogether, queryTogetherTry. now rewrite H.
Qed.

(** The [model] field is the literal of the variant on every path. *)
Lemma query_model_literal :
  model (queryOllama config backend prompt context) = "ollama" /\
  model (queryTogether config backend prompt context) = "together".
Proof.
  unfold queryOllama, queryTogether. split.
  - destruct (queryOllamaTry config backend prompt context) as [e|r] eqn:E;
      [reflexivity|].
    unfold queryOllamaTry in E.
    destruct (backend _) as [e|data]; [discriminate|].
    destruct (negb (truthy data)); [discriminate|].
    destruct (getProp data "response") as [e|v]; [discriminate|].
    destruct (negb (truthy v)); [discriminate|].
    now injection E as <-.
  - destruct (queryTogetherTry config backend prompt context) as [e|r] eqn:E;
      [reflexivity|].
    unfold queryTogetherTry in E.
    destruct (backend _) as [e|data]; [discriminate|].
    destruct (getProp data "output") as [e|output]; [discriminate|].
    destruct (getProp output "text") as [e|t]; [discriminate|].
    now injection E as <-.
Qed.




(** C9.  [queryOllama] turns a body whose [response] field is missing or
    is the empty string into an error-shaped response, whereas
    [queryTogether], given a body whose [output.text] is the empty string,
    returns it as a success: empty [text], no [error]. *)
Theorem empty_answer_asymmetry :
  (forall fields,
      backend (ollamaRequest config prompt context) = Resolved (VObj fields) ->
      lookup fields "response" = VUndefined \/
      lookup fields "response" = VStr "" ->
      queryOllama config backend prompt context
        = mkLLMResponse (VStr "") "ollama"
                        (Some "Invalid response from Ollama")) /\
  (forall fields outputFields,
      backend (togetherRequest config prompt context)
        = Resolved (VObj fields) ->
      lookup fields "output" = VObj outputFields ->
      lookup outputFields "text" = VStr "" ->
      queryTogether config backend prompt context
        = mkLLMResponse (VStr "") "together" None).
Proof.
  split.
  - intros fields Hb Hr. unfold queryOllama, queryOllamaTry.
    rewrite Hb. simpl. destruct Hr as [-> | ->]; reflexivity.
  - intros fields outputFields Hb Ho Ht.
    unfold queryTogether, queryTogetherTry.
    rewrite Hb. simpl. rewrite Ho. simpl. now rewrite Ht.
Qed.

End ProviderGateway.

Section ProviderGatewayExamples.

Import Exn Json ModelInterface Samples.


(** C3, on a malformed body.  The body of the Together endpoint keeps its
    completions under [output.choices]; reading [output.text] from it
    raises nothing, and [queryTogether] returns a success-shaped response
    whose [text] is [undefined] and whose [error] is absent, for every
    prompt and context. *)
Theorem queryTogether_malformed_body_not_an_error
        (config : Config) (prompt context : string) :
  queryTogether config (always (Resolved choicesBody)) prompt context
    = mkLLMResponse VUndefined "together" None.
Proof. reflexivity. Qed.

Example queryTogether_transport_failure (prompt context : string) :
  queryTogether sampleConfig (always (Rejected networkError)) prompt context
    = mkLLMResponse (VStr "") "together"
                    (Some "connect ECONNREFUSED 127.0.0.1:11434").
Proof. reflexivity. Qed.

Lemma empty_answer_asymmetry_witness :
  queryTogether sampleConfig (always (Resolved emptyTextBody)) "summarize" ""
    = mkLLMResponse (VStr "") "together" None.
Proof.
  exact (proj2 (empty_answer_asymmetry sampleConfig
                  (always (Resolved emptyTextBody)) "summarize" "")
               [("output", VObj [("text", VStr "")])] [("text", VStr "")]
               eq_refl eq_refl eq_refl).
Defined.

(** An [Error] thrown with an empty message is passed on as it is. *)
Example queryOllama_rejection_with_empty_message :
  queryOllama sampleConfig
              (always (Rejected (ThrowError (mkJsError "Error" None ""))))
              "summarize" ""
  = mkLLMResponse (VStr "") "ollama" (Some "").
Proof. reflexivity. Qed.


End ProviderGatewayExamples.

(** * Further properties *)

(** ** truncateContext: which newline is chosen *)

Section TruncateContextMore.

Import Js promptUtils.

Lemma lastIndexOfFrom_lower (c : ascii) (s : string) (i acc : Z) :
  lastIndexOfFrom c s i acc = acc \/ i <= lastIndexOfFrom c s i acc.
Proof.
  destruct (lastIndexOfFrom_spec c s i acc) as [H | [[H _] _]]; auto.
Qed.

Lemma lastIndexOfFrom_greatest (c : ascii) (s : string) :
  forall (i acc : Z) (k : nat),
    String.get k s = Some c ->
    i + Z.of_nat k <= lastIndexOfFrom c s i acc.
Proof.
  induction s as [|d s IH]; intros i acc k Hk; simpl in *; [discriminate|].
  destruct k as [|k].
  - injection Hk as ->. rewrite Ascii.eqb_refl.
    destruct (lastIndexOfFrom_lower c s (i + 1) i) as [-> | H]; lia.
  - specialize (IH (i + 1) (if Ascii.eqb d c then i else acc) k Hk). lia.
Qed.

Lemma lastIndexOf_greatest (s : string) (c : ascii) (j : Z) :
  charAt s j = Some c -> j <= lastIndexOf s c.
Proof.
  unfold charAt, lastIndexOf. destruct (j <? 0) eqn:E; [discriminate|].
  apply Z.ltb_ge in E. intros H.
  pose proof (lastIndexOfFrom_greatest c s 0 (-1) (Z.to_nat j) H). lia.
Qed.

(** The newline branch cuts at the last line feed among the first
    [maxLength] characters; the hard-limit branch is taken only when no
    line feed lies past four fifths of [maxLength] among them. *)
Theorem truncateContext_nearest_newline (context : string) (maxLength : Z) :
  0 <= maxLength -> maxLength < strlen context ->
  (exists cut,
      truncateContext context maxLength
        = slice context 0 cut ++ newlineMarker /\
      charAt context cut = Some LF /\
      forall j, cut < j < maxLength -> charAt context j <> Some LF) \/
  (truncateContext context maxLength
     = slice context 0 maxLength ++ hardMarker /\
   forall j, 4 * maxLength < 5 * j -> j < maxLength ->
             charAt context j <> Some LF).
Proof.
  intros H0 Hlen.
  pose proof (truncateContext_over context maxLength Hlen) as E.
  cbv zeta in E.
  pose proof (newline_cut_position context maxLength H0 Hlen) as P.
  cbv zeta in P.
  set (lastNewline := lastIndexOf (slice context 0 maxLength) LF) in *.
  assert (Hmax : forall j, 0 <= j < maxLength ->
                           charAt context j = Some LF -> j <= lastNewline).
  { intros j Hj Hc. apply lastIndexOf_greatest.
    rewrite charAt_slice_0 by lia. exact Hc. }
  assert (Hneg : forall j, j < 0 -> charAt context j <> Some LF).
  { intros j Hj. unfold charAt.
    destruct (j <? 0) eqn:Ej; [discriminate | apply Z.ltb_ge in Ej; lia]. }
  destruct (pastThreshold lastNewline maxLength) eqn:Hp.
  - left. destruct (P eq_refl) as (Hlo & Hhi & Hc).
    exists lastNewline. rewrite slice_0_nested in E by lia.
    repeat split; [exact E | exact Hc |].
    intros j Hj Hcj. assert (Hr : 0 <= j < maxLength) by lia.
    specialize (Hmax j Hr Hcj). lia.
  - right. split; [exact E|].
    intros j Hj1 Hj2 Hcj. unfold pastThreshold in Hp.
    apply Z.ltb_ge in Hp.
    destruct (Z.lt_ge_cases j 0) as [Hn | Hn]; [exact (Hneg j Hn Hcj)|].
    specialize (Hmax j (conj Hn Hj2) Hcj). lia.
Qed.

Lemma truncateContext_nearest_newline_witness :
  let context := "ab" ++ String LF "cdefgh" ++ String LF "ij" in
  (exists cut,
      truncateContext context 11 = slice context 0 cut ++ newlineMarker /\
      charAt context cut = Some LF /\
      forall j, cut < j < 11 -> charAt context j <> Some LF) \/
  (truncateContext context 11 = slice context 0 11 ++ hardMarker /\
   forall j, 4 * 11 < 5 * j -> j < 11 -> charAt context j <> Some LF).
Proof.
  exact (truncateContext_nearest_newline
           ("ab" ++ String LF "cdefgh" ++ String LF "ij") 11
           ltac:(discriminate) ltac:(reflexivity)).
Defined.

End TruncateContextMore.

(** ** isTextFile: names with a base and an extension *)

Section IsTextFileMore.

Import Js path fileUtils Lexical.

Lemma length_list_ascii (s : string) :
  List.length (list_ascii_of_string s) = String.length s.
Proof. induction s as [|c s IH]; simpl; [reflexivity | now rewrite IH]. Qed.

Lemma plainChar_cases (c : ascii) :
  plainChar c = true -> isDot c = false /\ isSlash c = false.
Proof.
  unfold plainChar. intros H. apply andb_true_iff in H as [Hd Hs].
  now apply negb_true_iff in Hd; apply negb_true_iff in Hs.
Qed.

(** A state the scan leaves alone on plain characters is carried across a
    run of them. *)
Lemma extLoop_fixed (st : ExtState) (l rest : list ascii) (i : Z) :
  (forall c j, plainChar c = true -> extChar c j st = st) ->
  forallb plainChar l = true ->
  extLoop (l ++ rest) i st = extLoop rest (i - Z.of_nat (List.length l)) st.
Proof.
  intros Hfix. revert i. induction l as [|c l IH]; intros i Hl.
  - simpl. now rewrite Z.sub_0_r.
  - simpl in Hl. apply andb_true_iff in Hl as [Hc Hl].
    destruct (plainChar_cases c Hc) as [_ Hs].
    cbn [app extLoop]. rewrite Hs, (Hfix c i Hc), (IH (i - 1) Hl).
    f_equal. cbn [List.length]. lia.
Qed.

Lemma extChar_after_end (e : Z) (c : ascii) (j : Z) :
  e <> -1 -> plainChar c = true ->
  extChar c j (mkExtState (-1) 0 e false 0) = mkExtState (-1) 0 e false 0.
Proof.
  intros He Hc. destruct (plainChar_cases c Hc) as [Hd _].
  unfold extChar. cbn [endPos startDot startPart matchedSlash preDotState].
  apply Z.eqb_neq in He. rewrite He, Hd.
  cbn [endPos startDot startPart matchedSlash preDotState]. reflexivity.
Qed.

Lemma extChar_before_base (d e : Z) (c : ascii) (j : Z) (pre : Z) :
  d <> -1 -> e <> -1 -> plainChar c = true -> pre = 0 \/ pre = -1 ->
  extChar c j (mkExtState d 0 e false pre) = mkExtState d 0 e false (-1).
Proof.
  intros Hd He Hc Hpre. destruct (plainChar_cases c Hc) as [Hdot _].
  unfold extChar. cbn [endPos startDot startPart matchedSlash preDotState].
  apply Z.eqb_neq in He, Hd. rewrite He, Hdot.
  cbn [endPos startDot startPart matchedSlash preDotState].
  now rewrite Hd.
Qed.

Lemma extChar_first_plain (c : ascii) (i : Z) :
  plainChar c = true ->
  extChar c i extInit = mkExtState (-1) 0 (i + 1) false 0.
Proof.
  intros Hc. destruct (plainChar_cases c Hc) as [Hd _].
  unfold extChar, extInit. cbn -[Z.add]. rewrite Hd. reflexivity.
Qed.

Lemma rev_chars_nonempty (s : string) :
  s <> "" ->
  exists c l, rev (list_ascii_of_string s) = c :: l /\
              Z.of_nat (List.length l) = strlen s - 1.
Proof.
  intros Hs. destruct (rev (list_ascii_of_string s)) as [|c l] eqn:E.
  - apply (f_equal (@rev ascii)) in E. rewrite rev_involutive in E.
    destruct s; [congruence | discriminate].
  - exists c, l. split; [reflexivity|].
    apply (f_equal (@List.length ascii)) in E.
    rewrite length_rev, length_list_ascii in E. simpl in E.
    unfold strlen. lia.
Qed.

Lemma forallb_rev_plain (s : string) :
  plainName s = true ->
  forallb plainChar (rev (list_ascii_of_string s)) = true.
Proof.
  unfold plainName. rewrite !forallb_forall. intros H c Hc.
  apply H. now apply in_rev.
Qed.

Lemma slice_suffix (a b : string) :
  slice (a ++ b) (strlen a) (strlen (a ++ b)) = b.
Proof.
  unfold slice, clampIndex.
  pose proof (strlen_nonneg a). pose proof (strlen_nonneg b).
  rewrite strlen_app.
  destruct (strlen a <? 0) eqn:E1; [apply Z.ltb_lt in E1; lia|].
  destruct (strlen a + strlen b <? 0) eqn:E2; [apply Z.ltb_lt in E2; lia|].
  rewrite !Z.min_l by lia.
  replace (Z.max (strlen a + strlen b - strlen a) 0) with (strlen b) by lia.
  unfold strlen. rewrite !Nat2Z.id.
  rewrite substring_skip_app. apply substring_0_all.
Qed.

(** The scan of [extname] over a last component [base.ext], alone or
    behind a directory. *)
Lemma extLoop_base_ext (front base ext : string) (dirChars : list ascii) :
  plainName base = true -> base <> "" ->
  plainName ext = true -> ext <> "" ->
  rev (list_ascii_of_string front) = dirChars ->
  dirChars = [] \/ (exists l, dirChars = "/"%char :: l) ->
  let p := (front ++ base) ++ String "." ext in
  let st := extLoop (rev (list_ascii_of_string p)) (strlen p - 1) extInit in
  startDot st = strlen (front ++ base) /\ endPos st = strlen p /\
  preDotState st = -1.
Proof.
  intros Hb Hbn He Hen Hfront Hdir p st.
  destruct (rev_chars_nonempty ext Hen) as (c0 & l0 & Ee & Le).
  destruct (rev_chars_nonempty base Hbn) as (b0 & lb & Eb & Lb).
  pose proof (forallb_rev_plain ext He) as Pe. rewrite Ee in Pe.
  pose proof (forallb_rev_plain base Hb) as Pb. rewrite Eb in Pb.
  simpl in Pe, Pb.
  apply andb_true_iff in Pe as [Pc0 Pl0].
  apply andb_true_iff in Pb as [Pb0 Plb].
  destruct (plainChar_cases c0 Pc0) as [Dc0 Sc0].
  destruct (plainChar_cases b0 Pb0) as [Db0 Sb0].
  assert (Hp : strlen p = strlen front + strlen base + 1 + strlen ext).
  { unfold p. rewrite !strlen_app.
    change (strlen (String "." ext)) with (Z.of_nat (S (String.length ext))).
    unfold strlen. lia. }
  pose proof (strlen_nonneg front). pose proof (strlen_nonneg base).
  pose proof (strlen_nonneg ext).
  assert (Hrev : rev (list_ascii_of_string p)
                 = (c0 :: l0 ++ "."%char :: (b0 :: lb ++ dirChars))%list).
  { unfold p. rewrite !list_ascii_of_string_app.
    cbn [list_ascii_of_string]. rewrite !rev_app_distr. cbn [rev].
    rewrite Ee, Eb, Hfront. cbn [app].
    rewrite <- !app_assoc. reflexivity. }
  subst st. rewrite Hrev. clear Hrev.
  assert (Hfb : strlen (front ++ base) = strlen front + strlen base)
    by apply strlen_app.
  clearbody p.
  assert (Hpe : strlen p <> -1) by lia.
  cbn [extLoop]. rewrite Sc0.
  assert (E1 : extChar c0 (strlen p - 1) extInit
               = mkExtState (-1) 0 (strlen p) false 0).
  { rewrite (extChar_first_plain c0 _ Pc0). f_equal. lia. }
  rewrite E1.
  rewrite (extLoop_fixed _ l0 _ _
             (fun c j => extChar_after_end (strlen p) c j Hpe) Pl0).
  cbn [extLoop]. change (isSlash ".") with false. cbv iota.
  set (d := strlen p - 1 - 1 - Z.of_nat (List.length l0)).
  assert (Hd : d = strlen front + strlen base) by (unfold d; lia).
  assert (Hdn : d <> -1) by lia.
  assert (E2 : extChar "." d (mkExtState (-1) 0 (strlen p) false 0)
               = mkExtState d 0 (strlen p) false 0).
  { unfold extChar. change (isDot ".") with true.
    cbn [endPos startDot startPart matchedSlash preDotState].
    destruct (strlen p =? -1) eqn:X; [apply Z.eqb_eq in X; lia|].
    cbn [endPos startDot startPart matchedSlash preDotState].
    rewrite Z.eqb_refl. reflexivity. }
  rewrite E2. rewrite Sb0.
  rewrite (extChar_before_base d (strlen p) b0 (d - 1) 0
             Hdn Hpe Pb0 (or_introl eq_refl)).
  rewrite (extLoop_fixed _ lb _ _
             (fun c j Hc => extChar_before_base d (strlen p) c j (-1)
                              Hdn Hpe Hc (or_intror eq_refl)) Plb).
  destruct Hdir as [-> | (l & ->)].
  - simpl. repeat split; lia.
  - cbn [extLoop]. change (isSlash "/") with true. cbv iota. simpl.
    repeat split; lia.
Qed.

Lemma extname_base_ext (front base ext : string) :
  plainName base = true -> base <> "" ->
  plainName ext = true -> ext <> "" ->
  front = "" \/ (exists dir, front = dir ++ "/") ->
  extname ((front ++ base) ++ String "." ext) = String "." ext.
Proof.
  intros Hb Hbn He Hen Hfront.
  assert (Hdir : rev (list_ascii_of_string front) = [] \/
                 exists l, rev (list_ascii_of_string front) = "/"%char :: l).
  { destruct Hfront as [-> | (dir & ->)]; [now left | right].
    rewrite list_ascii_of_string_app, rev_app_distr. simpl. eauto. }
  destruct (extLoop_base_ext front base ext _ Hb Hbn He Hen eq_refl Hdir)
    as (Hs & Hp & Hd).
  unfold extname. rewrite Hs, Hp, Hd.
  pose proof (strlen_nonneg (front ++ base)).
  destruct (strlen (front ++ base) =? -1) eqn:E1;
    [apply Z.eqb_eq in E1; lia|].
  pose proof (strlen_nonneg ((front ++ base) ++ String "." ext)).
  destruct (strlen ((front ++ base) ++ String "." ext) =? -1) eqn:E2;
    [apply Z.eqb_eq in E2; lia|].
  change (-1 =? 0) with false. change (-1 =? 1) with false.
  cbn [orb andb]. apply slice_suffix.
Qed.

(** For a last component [base.ext] whose two parts are non-empty and hold
    no further dot, alone or behind any directory, [isTextFile] is exactly
    the membership of the lower-cased [.ext] in the list of recognised
    extensions: upper-case extensions are accepted, others are refused. *)
Theorem isTextFile_by_extension (base ext : string) :
  plainName base = true -> base <> "" ->
  plainName ext = true -> ext <> "" ->
  isTextFile (base ++ String "." ext)
    = includes textExtensions (toLowerCase (String "." ext)) /\
  forall dir,
    isTextFile (dir ++ String "/" (base ++ String "." ext))
      = includes textExtensions (toLowerCase (String "." ext)).
Proof.
  intros Hb Hbn He Hen. unfold isTextFile. split.
  - pose proof (extname_base_ext "" base ext Hb Hbn He Hen
                  (or_introl eq_refl)) as E.
    change (("" ++ base) ++ String "." ext)
      with (base ++ String "." ext) in E.
    now rewrite E.
  - intros dir.
    pose proof (extname_base_ext (dir ++ "/") base ext Hb Hbn He Hen
                  (or_intror (ex_intro _ dir eq_refl))) as E.
    rewrite !append_assoc in E. simpl in E. now rewrite E.
Qed.

Lemma isTextFile_by_extension_witness :
  (isTextFile "notes.MD"
     = includes textExtensions (toLowerCase ".MD") /\
   forall dir,
     isTextFile (dir ++ String "/" "notes.MD")
       = includes textExtensions (toLowerCase ".MD")) /\
  isTextFile "/srv/app/storage/notes.MD" = true.
Proof.
  split; [|reflexivity].
  exact (isTextFile_by_extension "notes" "MD" eq_refl
           ltac:(discriminate) eq_refl ltac:(discriminate)).
Defined.

(** A last component without any dot has no extension, whatever the dots
    in the directories before it, and is refused. *)
Theorem isTextFile_without_dot (name : string) :
  plainName name = true -> name <> "" ->
  isTextFile name = false /\
  forall dir, isTextFile (dir ++ String "/" name) = false.
Proof.
  intros Hn Hne.
  destruct (rev_chars_nonempty name Hne) as (c0 & l0 & En & Ln).
  pose proof (forallb_rev_plain name Hn) as Pn. rewrite En in Pn.
  simpl in Pn. apply andb_true_iff in Pn as [Pc0 Pl0].
  destruct (plainChar_cases c0 Pc0) as [_ Sc0].
  assert (Hscan : forall front rest,
             rev (list_ascii_of_string front) = rest ->
             rest = [] \/ (exists l, rest = "/"%char :: l) ->
             extname (front ++ name) = "").
  { intros front rest Hf Hr. unfold extname.
    rewrite list_ascii_of_string_app, rev_app_distr, En, Hf.
    cbn [app extLoop]. rewrite Sc0, (extChar_first_plain c0 _ Pc0).
    pose proof (strlen_nonneg (front ++ name)).
    assert (Hq : strlen (front ++ name) - 1 + 1 <> -1) by lia.
    rewrite (extLoop_fixed _ l0 _ _
               (fun c j => extChar_after_end _ c j Hq) Pl0).
    destruct Hr as [-> | (l & ->)]; reflexivity. }
  unfold isTextFile. split.
  - pose proof (Hscan "" [] eq_refl (or_introl eq_refl)) as E.
    change ("" ++ name) with name in E. now rewrite E.
  - intros dir.
    assert (E : extname ((dir ++ "/") ++ name) = "").
    { apply (Hscan _ _ eq_refl). right.
      rewrite list_ascii_of_string_app, rev_app_distr. simpl. eauto. }
    rewrite append_assoc in E. simpl in E. now rewrite E.
Qed.

Lemma isTextFile_without_dot_witness :
  isTextFile "Makefile" = false /\
  forall dir, isTextFile (dir ++ String "/" "Makefile") = false.
Proof.
  exact (isTextFile_without_dot "Makefile" eq_refl ltac:(discriminate)).
Defined.

End IsTextFileMore.

(** ** sanitizePath: the shape of every result *)

Section SanitizePathMore.

Import Js path fileUtils Lexical.

Lemma pushSegment_below_root_good (stack : list string) (seg : string) :
  forallb goodSegment stack = true ->
  forallb goodSegment (pushSegment false stack seg) = true.
Proof.
  intros Hst. unfold pushSegment. rewrite kept_or_dropped.
  destruct (keptSegment seg) eqn:Ek; simpl negb; cbv iota; [|exact Hst].
  destruct (String.eqb seg "..") eqn:Ep.
  - destruct stack as [|top below]; [reflexivity|].
    simpl in Hst. apply andb_true_iff in Hst as [Ht Hb].
    destruct (String.eqb top ".."); [|exact Hb].
    simpl. now rewrite Ht, Hb.
  - simpl. unfold goodSegment at 1, notParent. now rewrite Ek, Ep, Hst.
Qed.

Lemma normalizeSegments_below_root_good (segs : list string) :
  forallb goodSegment (normalizeSegments false segs) = true.
Proof.
  unfold normalizeSegments.
  assert (H : forall stack, forallb goodSegment stack = true ->
              forallb goodSegment (fold_left (pushSegment false) segs stack)
              = true).
  { induction segs as [|seg segs IH]; intros stack Hst; [exact Hst|].
    simpl. apply IH, pushSegment_below_root_good, Hst. }
  specialize (H [] eq_refl). rewrite forallb_forall in *.
  intros x Hx. apply H. now apply in_rev.
Qed.

Lemma normalizeSegments_slashFree (a : bool) (p : string) :
  Forall (fun seg => slashFree seg = true)
         (normalizeSegments a (splitSlash p)).
Proof.
  unfold normalizeSegments. apply Forall_rev.
  apply fold_pushSegment_Forall;
    [reflexivity | apply splitSlash_slashFree | constructor].
Qed.

Lemma goodSegment_kept (l : list string) :
  forallb goodSegment l = true -> filter keptSegment l = l.
Proof.
  induction l as [|x l IH]; [reflexivity|]. simpl. intros H.
  apply andb_true_iff in H as [Hx Hl]. unfold goodSegment in Hx.
  apply andb_true_iff in Hx as [-> _]. now rewrite (IH Hl).
Qed.

Lemma goodSegment_proper (l : list string) :
  forallb goodSegment l = true -> forallb properSegment l = true.
Proof.
  rewrite !forallb_forall. intros H x Hx. specialize (H x Hx).
  unfold goodSegment, keptSegment, notParent in H.
  apply andb_true_iff in H as [H1 H2]. apply andb_true_iff in H1 as [_ H1].
  unfold properSegment. now rewrite H1, H2.
Qed.

(** The pieces of a path written as a separator followed by good pieces
    joined by separators are those pieces. *)
Lemma segments_root_join (R : list string) :
  Forall (fun seg => slashFree seg = true) R ->
  forallb goodSegment R = true ->
  segments (String "/" (joinSlash R)) = R.
Proof.
  intros Hs Hg. unfold segments. cbn [splitSlash].
  change (isSlash "/") with true. cbv iota. cbn [filter].
  change (nonEmpty "") with false. cbv iota.
  destruct R as [|x l]; [reflexivity|].
  rewrite splitSlash_joinSlash; [| discriminate | exact Hs].
  rewrite <- (goodSegment_kept _ Hg) at 2.
  rewrite <- (goodSegment_kept _ Hg) at 1. apply filter_nonEmpty_kept.
Qed.

(** With an absolute working directory, [resolve] always ends in its
    absolute branch. *)
Lemma resolve_below_root (cwd x : string) :
  isAbsolute cwd = true ->
  exists p, resolve cwd [x] = String "/" (normalizeString p false).
Proof.
  intros Habs.
  assert (Hne : String.eqb cwd "" = false)
    by (destruct cwd; [discriminate | reflexivity]).
  unfold resolve. cbn [rev app resolveLoop].
  destruct (String.eqb x "").
  - rewrite Hne, Habs. eexists. reflexivity.
  - destruct (isAbsolute x); [eexists; reflexivity|].
    rewrite Hne, Habs. eexists. reflexivity.
Qed.

Lemma sanitizePath_shape (cwd inputPath : string) :
  isAbsolute cwd = true ->
  exists R,
    sanitizePath cwd inputPath = String "/" (joinSlash R) /\
    forallb goodSegment R = true /\
    Forall (fun seg => slashFree seg = true) R.
Proof.
  intros Habs. unfold sanitizePath.
  destruct (resolve_below_root cwd
              (stripLeadingTraversal (normalize inputPath)) Habs) as (p & ->).
  exists (normalizeSegments false (splitSlash p)).
  split; [reflexivity | split].
  - apply normalizeSegments_below_root_good.
  - apply normalizeSegments_slashFree.
Qed.

(** Whatever the input, when the working directory is absolute the result
    of [sanitizePath] is an absolute path in canonical form: its pieces
    joined by single separators behind a leading one, none of them ["."]
    or [".."]. *)
Theorem sanitizePath_canonical (cwd inputPath : string) :
  isAbsolute cwd = true ->
  let r := sanitizePath cwd inputPath in
  isAbsolute r = true /\
  forallb properSegment (segments r) = true /\
  r = String "/" (joinSlash (segments r)).
Proof.
  intros Habs r.
  destruct (sanitizePath_shape cwd inputPath Habs) as (R & E & Hg & Hs).
  subst r. rewrite E, (segments_root_join R Hs Hg).
  split; [reflexivity | split; [now apply goodSegment_proper | reflexivity]].
Qed.

Lemma sanitizePath_canonical_witness :
  let r := sanitizePath "/srv/app" "/etc//./x/../passwd/" in
  isAbsolute r = true /\
  forallb properSegment (segments r) = true /\
  r = String "/" (joinSlash (segments r)).
Proof.
  exact (sanitizePath_canonical "/srv/app" "/etc//./x/../passwd/" eq_refl).
Defined.

Lemma normalizeString_no_parent (p : string) (a : bool) :
  forallb notParent (splitSlash p) = true ->
  normalizeString p a = joinSlash (filter keptSegment (splitSlash p)).
Proof.
  intros H. unfold normalizeString, normalizeSegments.
  now rewrite (fold_pushSegment_noParent a _ [] H), app_nil_r, rev_involutive.
Qed.

Lemma filter_kept_empty (l : list string) :
  filter keptSegment ("" :: l) = filter keptSegment l.
Proof. reflexivity. Qed.

Lemma strip_absolute (s : string) :
  stripLeadingTraversal (String "/" s) = String "/" s.
Proof. destruct s; reflexivity. Qed.

(** A canonical absolute path is left as it is. *)
Lemma sanitizePath_fixes_canonical (cwd : string) (R : list string) :
  Forall (fun seg => slashFree seg = true) R ->
  forallb goodSegment R = true ->
  sanitizePath cwd (String "/" (joinSlash R)) = String "/" (joinSlash R).
Proof.
  intros Hs Hg. destruct R as [|x l]; [reflexivity|].
  set (n := joinSlash (x :: l)).
  assert (Hsplit : splitSlash n = x :: l)
    by (apply splitSlash_joinSlash; [discriminate | exact Hs]).
  assert (Hnp : forallb notParent (x :: l) = true)
    by now apply goodSegment_notParent.
  assert (Hk : filter keptSegment (x :: l) = x :: l)
    by now apply goodSegment_kept.
  assert (Hx : x <> "").
  { simpl in Hg. apply andb_true_iff in Hg as [Hx _].
    now apply goodSegment_not_empty. }
  assert (Hn : String.eqb n "" = false) by now apply joinSlash_not_empty.
  assert (Hnorm : exists t,
             (t = [] \/ t = [""]) /\
             exists y, normalize (String "/" n) = String "/" y /\
                       splitSlash y = (x :: l ++ t)%list).
  { unfold normalize. cbn [String.eqb isAbsolute].
    change (isSlash "/") with true. cbv iota. simpl negb.
    rewrite normalizeString_no_parent
      by (cbn [splitSlash]; change (isSlash "/") with true; cbv iota;
          rewrite Hsplit; exact Hnp).
    cbn [splitSlash]. change (isSlash "/") with true. cbv iota.
    rewrite Hsplit, filter_kept_empty, Hk. fold n. rewrite Hn.
    destruct (hasTrailingSlash (String "/" n)).
    - exists [""]. split; [now right|]. exists (n ++ "/"). split.
      + reflexivity.
      + change (n ++ "/") with (n ++ String "/" "").
        now rewrite splitSlash_app_slash, Hsplit.
    - exists []. split; [now left|]. exists n. split.
      + simpl. now rewrite append_nil_r.
      + now rewrite app_nil_r. }
  destruct Hnorm as (t & Ht & y & Ey & Sy).
  unfold sanitizePath. rewrite Ey, strip_absolute.
  unfold resolve. cbn [rev app resolveLoop String.eqb isAbsolute].
  change (isSlash "/") with true. cbv iota. f_equal.
  change (String "/" y ++ "/" ++ "") with (String "/" (y ++ String "/" "")).
  assert (Sp : splitSlash (String "/" (y ++ String "/" ""))
               = ("" :: (x :: l ++ t) ++ [""])%list).
  { cbn [splitSlash]. change (isSlash "/") with true. cbv iota.
    now rewrite splitSlash_app_slash, Sy. }
  rewrite normalizeString_no_parent; rewrite Sp.
  - rewrite filter_kept_empty.
    change (x :: l ++ t)%list with ((x :: l) ++ t)%list.
    rewrite !filter_app, Hk.
    destruct Ht as [-> | ->]; simpl; now rewrite !app_nil_r.
  - change (x :: l ++ t)%list with ((x :: l) ++ t)%list.
    cbn [forallb]. rewrite !forallb_app, Hnp.
    destruct Ht as [-> | ->]; reflexivity.
Qed.

(** Sanitising twice is sanitising once. *)
Theorem sanitizePath_idempotent (cwd inputPath : string) :
  isAbsolute cwd = true ->
  sanitizePath cwd (sanitizePath cwd inputPath) = sanitizePath cwd inputPath.
Proof.
  intros Habs.
  destruct (sanitizePath_shape cwd inputPath Habs) as (R & E & Hg & Hs).
  rewrite E. now apply sanitizePath_fixes_canonical.
Qed.

Lemma sanitizePath_idempotent_witness :
  sanitizePath "/srv/app" (sanitizePath "/srv/app" "../a/./b/")
  = sanitizePath "/srv/app" "../a/./b/".
Proof.
  exact (sanitizePath_idempotent "/srv/app" "../a/./b/" eq_refl).
Defined.

(** An absolute input is answered with its own normal form below the
    root: its pieces, [".."] removing the piece before it and never
    climbing above the root; the working directory plays no part. *)
Theorem sanitizePath_absolute_normal_form (cwd inputPath : string) :
  isAbsolute inputPath = true ->
  sanitizePath cwd inputPath
  = String "/" (joinSlash (normalizeSegments false (splitSlash inputPath))).
Proof.
  intros Habs.
  set (R := normalizeSegments false (splitSlash inputPath)).
  pose proof (normalizeSegments_below_root_good (splitSlash inputPath)) as Hg.
  pose proof (normalizeSegments_slashFree false inputPath) as Hs.
  fold R in Hg, Hs.
  assert (Hnp : forallb notParent R = true)
    by now apply goodSegment_notParent.
  assert (Hk : filter keptSegment R = R) by now apply goodSegment_kept.
  assert (Hnorm : exists t y,
             (t = [] \/ t = [""]) /\
             normalize inputPath = String "/" y /\
             splitSlash y = (R ++ t)%list).
  { unfold normalize.
    destruct (String.eqb_spec inputPath "") as [-> | _]; [discriminate|].
    rewrite Habs. simpl negb. unfold normalizeString. fold R.
    destruct R as [|x l] eqn:ER.
    - exists [""], "". split; [now right|]. split; reflexivity.
    - assert (Hx : x <> "").
      { simpl in Hg. apply andb_true_iff in Hg as [Hx _].
        now apply goodSegment_not_empty. }
      rewrite (joinSlash_not_empty x l Hx).
      assert (Hsplit : splitSlash (joinSlash (x :: l)) = x :: l)
        by (apply splitSlash_joinSlash; [discriminate | exact Hs]).
      destruct (hasTrailingSlash inputPath).
      + exists [""], (joinSlash (x :: l) ++ "/").
        split; [now right|]. split; [reflexivity|].
        change (joinSlash (x :: l) ++ "/")
          with (joinSlash (x :: l) ++ String "/" "").
        now rewrite splitSlash_app_slash, Hsplit.
      + exists [], (joinSlash (x :: l)).
        split; [now left|]. split.
        * simpl. now rewrite append_nil_r.
        * now rewrite app_nil_r. }
  destruct Hnorm as (t & y & Ht & Ey & Sy).
  unfold sanitizePath. rewrite Ey, strip_absolute.
  unfold resolve. cbn [rev app resolveLoop String.eqb isAbsolute].
  change (isSlash "/") with true. cbv iota. f_equal.
  change (String "/" y ++ "/" ++ "") with (String "/" (y ++ String "/" "")).
  assert (Sp : splitSlash (String "/" (y ++ String "/" ""))
               = ("" :: (R ++ t) ++ [""])%list).
  { cbn [splitSlash]. change (isSlash "/") with true. cbv iota.
    now rewrite splitSlash_app_slash, Sy. }
  rewrite normalizeString_no_parent; rewrite Sp.
  - rewrite filter_kept_empty, !filter_app, Hk.
    destruct Ht as [-> | ->]; simpl; now rewrite !app_nil_r.
  - change (forallb notParent ("" :: (R ++ t) ++ [""]))
      with (forallb notParent ((R ++ t) ++ [""])).
    rewrite !forallb_app, Hnp. destruct Ht as [-> | ->]; reflexivity.
Qed.

Lemma sanitizePath_absolute_normal_form_witness :
  sanitizePath "/srv/app" "/etc/../../var//log/./app.log"
  = String "/" (joinSlash (normalizeSegments false
                   (splitSlash "/etc/../../var//log/./app.log"))) /\
  sanitizePath "/srv/app" "/etc/../../var//log/./app.log"
  = "/var/log/app.log".
Proof.
  split; [|reflexivity].
  exact (sanitizePath_absolute_normal_form "/srv/app"
           "/etc/../../var//log/./app.log" eq_refl).
Defined.

End SanitizePathMore.

(** ** validators *)

Section Validators.

Import Js JsText Json validators.

Lemma trimEnd_keeps_visible (c : ascii) (r : string) :
  isWhiteSpace c = false -> (0 <? strlen (trimEnd (String c r))) = true.
Proof.
  intros Hc. cbn [trimEnd]. rewrite Hc. destruct (trimEnd r); reflexivity.
Qed.

(** A query is accepted exactly when it is a string holding a character
    that is not white space; any other value is refused. *)
Theorem isValidQuery_visible_character (query : JsValue) :
  isValidQuery query
  = match query with
    | VStr q => existsb (fun c => negb (isWhiteSpace c))
                        (list_ascii_of_string q)
    | _ => false
    end.
Proof.
  destruct query as [| | b | n | q | items | fields]; try reflexivity.
  unfold isValidQuery, trim.
  induction q as [|c q IH]; [reflexivity|].
  cbn [trimStart list_ascii_of_string existsb].
  destruct (isWhiteSpace c) eqn:Hc; simpl negb; cbv iota.
  - exact IH.
  - now rewrite trimEnd_keeps_visible.
Qed.

End Validators.

(** ** sanitizePath on a validated path *)

Section ValidatedPath.

Import Js JsText Json path fileUtils Lexical validators.

Lemma startsWith_parent_piece (p h : string) (t : list string) :
  splitSlash p = h :: t -> startsWith h ".." = true ->
  startsWith p ".." = true.
Proof.
  intros E Hh.
  assert (Hshort : forall a, startsWith (String a "") ".." = false).
  { intros a. cbn [startsWith]. apply andb_false_r. }
  destruct p as [|a [|b r]]; cbn [splitSlash] in E.
  - injection E as <- _. discriminate.
  - destruct (isSlash a); injection E as <- _;
      [discriminate | now rewrite Hshort in Hh].
  - destruct (isSlash a); [injection E as <- _; discriminate|].
    destruct (isSlash b);
      [injection E as <- _; now rewrite Hshort in Hh|].
    destruct (splitSlash_cons r) as (h' & t' & Er). rewrite Er in E.
    injection E as <- _. cbn [startsWith] in *.
    apply andb_true_iff in Hh as [-> Hh].
    apply andb_true_iff in Hh as [-> _]. destruct r; reflexivity.
Qed.

(** No piece of a path that holds no two consecutive dots begins with
    two dots. *)
Lemma includes_pieces (p : string) :
  JsText.includes p ".." = false ->
  Forall (fun seg => startsWith seg ".." = false) (splitSlash p).
Proof.
  induction p as [|c r IH]; intros H.
  - repeat constructor.
  - cbn [JsText.includes] in H. apply orb_false_iff in H as [Hs Hr].
    specialize (IH Hr).
    destruct (splitSlash (String c r)) as [|h t] eqn:E.
    + constructor.
    + constructor.
      * destruct (startsWith h "..") eqn:Eh; [|reflexivity].
        rewrite (startsWith_parent_piece _ h t E Eh) in Hs. discriminate.
      * cbn [splitSlash] in E. destruct (isSlash c).
        -- injection E as _ <-. exact IH.
        -- destruct (splitSlash r) as [|h' t'];
             [injection E as _ <-; constructor|].
           injection E as _ <-. now inversion IH.
Qed.

Lemma no_parent_start_notParent (l : list string) :
  Forall (fun seg => startsWith seg ".." = false) l ->
  forallb notParent l = true.
Proof.
  intros H. apply forallb_forall. intros x Hx.
  rewrite Forall_forall in H. specialize (H x Hx).
  unfold notParent. destruct (String.eqb_spec x ".."); [|reflexivity].
  subst x. discriminate.
Qed.

Lemma strip_kept_head (k rest : string) :
  k <> "" -> startsWith k ".." = false ->
  rest = "" \/ (exists r, rest = String "/" r) ->
  stripLeadingTraversal (k ++ rest) = k ++ rest.
Proof.
  intros Hk Hs Hrest. destruct k as [|a [|b k']]; [congruence | |].
  - destruct Hrest as [-> | (r & ->)]; [reflexivity|].
    cbn [append stripLeadingTraversal].
    change (Ascii.eqb "/" ".") with false. now rewrite andb_false_r.
  - cbn [append stripLeadingTraversal]. cbn [startsWith] in Hs.
    assert (Hnil : startsWith k' "" = true) by (destruct k'; reflexivity).
    rewrite Hnil, andb_true_r in Hs.
    rewrite (Ascii.eqb_sym a "."), (Ascii.eqb_sym b "."), Hs. reflexivity.
Qed.

Lemma filter_kept_twice (l : list string) :
  filter keptSegment (filter keptSegment l) = filter keptSegment l.
Proof.
  induction l as [|x l IH]; [reflexivity|]. simpl.
  destruct (keptSegment x) eqn:E; [|exact IH].
  simpl. now rewrite E, IH.
Qed.

Lemma relative_head (k rest : string) :
  k <> "" -> slashFree k = true -> isAbsolute (k ++ rest) = false.
Proof.
  intros Hk Hs. destruct k as [|a k]; [congruence|].
  unfold slashFree in Hs. simpl in Hs.
  apply andb_true_iff in Hs as [Ha _]. now apply negb_true_iff in Ha.
Qed.

Lemma filter_kept_In (l : list string) (x : string) :
  In x (filter keptSegment l) -> In x l /\ x <> "".
Proof.
  intros H. apply filter_In in H as [Hin Hk]. split; [exact Hin|].
  intros ->. discriminate.
Qed.

(** Normalising a non-empty path none of whose pieces begins with two
    dots: the replacement of [sanitizePath] then finds nothing to remove,
    and the pieces that count are those of the input. *)
Lemma normalize_without_parents (p : string) :
  p <> "" ->
  Forall (fun seg => startsWith seg ".." = false) (splitSlash p) ->
  let y := normalize p in
  stripLeadingTraversal y = y /\ String.eqb y "" = false /\
  isAbsolute y = isAbsolute p /\
  forallb notParent (splitSlash y) = true /\
  filter keptSegment (splitSlash y) = filter keptSegment (splitSlash p).
Proof.
  intros Hp Hdd y. subst y.
  pose proof (no_parent_start_notParent _ Hdd) as Hnp.
  unfold normalize.
  destruct (String.eqb_spec p "") as [|_]; [congruence|].
  rewrite (normalizeString_no_parent p _ Hnp).
  destruct (filter keptSegment (splitSlash p)) as [|k1 ks] eqn:EK.
  - destruct (isAbsolute p); [repeat split|].
    destruct (hasTrailingSlash p); repeat split.
  - assert (Hin : forall x, In x (k1 :: ks) -> In x (splitSlash p) /\ x <> "")
      by (intros x Hx; rewrite <- EK in Hx; now apply filter_kept_In).
    assert (Hsf : Forall (fun seg => slashFree seg = true) (k1 :: ks)).
    { apply Forall_forall. intros x Hx.
      exact (proj1 (Forall_forall _ _) (splitSlash_slashFree p) x
                   (proj1 (Hin x Hx))). }
    assert (Hk1 : k1 <> "") by (apply Hin; now left).
    assert (Hk1s : startsWith k1 ".." = false).
    { apply (proj1 (Forall_forall _ _) Hdd). apply Hin. now left. }
    assert (HnpK : forallb notParent (k1 :: ks) = true).
    { apply forallb_forall. intros x Hx.
      exact (proj1 (forallb_forall _ _) Hnp x (proj1 (Hin x Hx))). }
    assert (HkK : filter keptSegment (k1 :: ks) = k1 :: ks)
      by (rewrite <- EK; apply filter_kept_twice).
    set (n := joinSlash (k1 :: ks)) in *.
    assert (Hsplit : splitSlash n = k1 :: ks)
      by (apply splitSlash_joinSlash; [discriminate | exact Hsf]).
    assert (Hn0 : String.eqb n "" = false)
      by (apply joinSlash_not_empty; exact Hk1).
    rewrite Hn0.
    set (t := if hasTrailingSlash p then "/" else "").
    assert (Ht : exists tl, (tl = [] \/ tl = [""]) /\
                            splitSlash (n ++ t) = (k1 :: ks ++ tl)%list).
    { unfold t. destruct (hasTrailingSlash p).
      - exists [""]. split; [now right|].
        change (n ++ "/") with (n ++ String "/" "").
        now rewrite splitSlash_app_slash, Hsplit.
      - exists []. split; [now left|].
        now rewrite append_nil_r, app_nil_r. }
    destruct Ht as (tl & Htl & St).
    assert (Hnt : n ++ t = k1 ++ (match ks with
                                  | [] => t
                                  | _ :: _ => String "/" (joinSlash ks ++ t)
                                  end)).
    { unfold n. destruct ks as [|k2 ks']; [reflexivity|].
      rewrite joinSlash_cons2, append_assoc. reflexivity. }
    assert (Hrest : (match ks with
                     | [] => t
                     | _ :: _ => String "/" (joinSlash ks ++ t)
                     end) = "" \/
                    exists r, (match ks with
                               | [] => t
                               | _ :: _ => String "/" (joinSlash ks ++ t)
                               end) = String "/" r).
    { destruct ks; [|right; eauto].
      unfold t. destruct (hasTrailingSlash p); [right; eauto | now left]. }
    assert (Hfilt : filter keptSegment (k1 :: ks ++ tl) = k1 :: ks).
    { change (k1 :: ks ++ tl)%list with ((k1 :: ks) ++ tl)%list.
      rewrite filter_app, HkK.
      destruct Htl as [-> | ->]; simpl; now rewrite app_nil_r. }
    assert (Hnpt : forallb notParent (k1 :: ks ++ tl) = true).
    { change (k1 :: ks ++ tl)%list with ((k1 :: ks) ++ tl)%list.
      rewrite forallb_app, HnpK. destruct Htl as [-> | ->]; reflexivity. }
    destruct (isAbsolute p).
    + change ("/" ++ n ++ t) with (String "/" (n ++ t)).
      rewrite strip_absolute. cbn [splitSlash isAbsolute String.eqb].
      change (isSlash "/") with true. cbv iota.
      rewrite St, filter_kept_empty, Hfilt.
      change (forallb notParent ("" :: k1 :: ks ++ tl))
        with (forallb notParent (k1 :: ks ++ tl)).
      rewrite Hnpt. repeat split.
    + change ("" ++ n ++ t) with (n ++ t).
      rewrite St, Hfilt, Hnpt, Hnt.
      rewrite (strip_kept_head _ _ Hk1 Hk1s Hrest).
      rewrite (relative_head k1 _ Hk1).
      2:{ now inversion Hsf. }
      repeat split.
      destruct k1; [congruence | reflexivity].
Qed.

(** For a path the route has validated (a non-empty string without two
    consecutive dots), [sanitizePath] removes nothing: the result is the
    working directory followed by the pieces of the path other than ["."]
    and the empty ones, or those pieces alone when the path is absolute. *)
Theorem sanitizePath_of_valid_path (cwd p : string) :
  isValidPath (VStr p) = true ->
  resolvedDirectory cwd = true ->
  sanitizePath cwd p
  = String "/" (joinSlash ((if isAbsolute p then [] else segments cwd)
                           ++ filter keptSegment (splitSlash p))).
Proof.
  intros Hv Hcwd. unfold isValidPath in Hv.
  apply andb_true_iff in Hv as [Hlen Hinc].
  apply negb_true_iff in Hinc. apply Z.ltb_lt in Hlen.
  assert (Hp : p <> "") by (intros ->; discriminate).
  destruct (normalize_without_parents p Hp (includes_pieces p Hinc))
    as (Hstrip & Hne & Habs & Hnp & Hk).
  unfold sanitizePath. rewrite Hstrip.
  set (y := normalize p) in *. clearbody y.
  pose proof Hcwd as Hc. unfold resolvedDirectory in Hc.
  apply andb_true_iff in Hc as [Hcabs Hcseg].
  assert (Hcne : String.eqb cwd "" = false)
    by (destruct cwd; [discriminate | reflexivity]).
  unfold resolve. cbn [rev app resolveLoop]. rewrite Hne, Habs.
  destruct (isAbsolute p).
  - change (y ++ "/" ++ "") with (y ++ String "/" "").
    f_equal. rewrite normalizeString_no_parent;
      rewrite splitSlash_app_slash.
    + rewrite filter_app, Hk. simpl. now rewrite app_nil_r.
    + rewrite forallb_app, Hnp. reflexivity.
  - rewrite Hcne, Hcabs.
    change (cwd ++ "/" ++ y ++ "/" ++ "")
      with (cwd ++ String "/" (y ++ String "/" "")).
    f_equal. rewrite normalizeString_no_parent;
      rewrite !splitSlash_app_slash.
    + rewrite !filter_app, Hk, (segments_kept _ Hcseg). simpl.
      now rewrite app_nil_r.
    + rewrite !forallb_app, Hnp, (segments_notParent cwd Hcseg). reflexivity.
Qed.

Lemma sanitizePath_of_valid_path_witness :
  sanitizePath "/srv/app" "./storage//notes.md"
  = String "/" (joinSlash (segments "/srv/app"
                           ++ filter keptSegment
                                (splitSlash "./storage//notes.md"))).
Proof.
  exact (sanitizePath_of_valid_path "/srv/app" "./storage//notes.md"
           eq_refl eq_refl).
Defined.

End ValidatedPath.

(** ** readDirectory: names and paths of the records *)

Section DirectoryRecords.

Import Exn path Lexical FileSystemTools Samples Entries.

Lemma joinSlash_last_not_empty (l : list string) (x : string) :
  x <> "" -> String.eqb (joinSlash (l ++ [x])) "" = false.
Proof.
  intros Hx. destruct l as [|a l].
  - simpl. destruct x; [congruence | reflexivity].
  - destruct (l ++ [x])%list as [|b m] eqn:E;
      [destruct l; discriminate|].
    cbn [app]. rewrite E, joinSlash_cons2.
    destruct a; reflexivity.
Qed.

Lemma basename_of_pieces (y name : string) (front back : list string) :
  splitSlash y = (front ++ name :: back)%list ->
  name <> "" -> back = [] \/ back = [""] ->
  basename y = name.
Proof.
  intros E Hn Hb. unfold basename. rewrite E, rev_app_distr.
  assert (Hname : negb (String.eqb name "") = true)
    by (apply negb_true_iff, String.eqb_neq, Hn).
  destruct Hb as [-> | ->]; cbn [rev app filter]; rewrite ?Hname;
    reflexivity.
Qed.

(** The last piece of a path survives normalisation when it names an
    entry. *)
Lemma basename_normalize_last (joined name : string) (front : list string) :
  splitSlash joined = (front ++ [name])%list ->
  goodSegment name = true -> slashFree name = true ->
  basename (normalize joined) = name.
Proof.
  intros E Hg Hs.
  assert (Hn : name <> "") by now apply goodSegment_not_empty.
  unfold goodSegment in Hg. apply andb_true_iff in Hg as [Hk Hp].
  unfold notParent in Hp. apply negb_true_iff in Hp.
  unfold normalize.
  destruct (String.eqb_spec joined "") as [-> | _].
  { destruct front; simpl in E; [congruence|].
    injection E as _ E. destruct front; discriminate. }
  set (a := negb (isAbsolute joined)).
  pose proof (normalizeSegments_slashFree a joined) as Hsf.
  unfold normalizeString. unfold normalizeSegments in *.
  rewrite E, fold_left_app in *. cbn [fold_left] in *.
  set (stack := fold_left (pushSegment a) front []) in *.
  assert (Hpush : pushSegment a stack name = name :: stack).
  { unfold pushSegment. now rewrite kept_or_dropped, Hk, Hp. }
  rewrite Hpush in *. cbn [rev] in *.
  rewrite (joinSlash_last_not_empty _ name Hn).
  assert (Hsplit : splitSlash (joinSlash (rev stack ++ [name]))
                   = (rev stack ++ [name])%list).
  { apply splitSlash_joinSlash; [|exact Hsf].
    destruct (rev stack); discriminate. }
  set (n := joinSlash (rev stack ++ [name])) in *.
  destruct (isAbsolute joined), (hasTrailingSlash joined).
  - change ("/" ++ n ++ "/") with (String "/" (n ++ String "/" "")).
    apply (basename_of_pieces _ name ("" :: rev stack) [""]);
      [|exact Hn | now right].
    cbn [splitSlash]. change (isSlash "/") with true. cbv iota.
    rewrite splitSlash_app_slash, Hsplit. simpl.
    now rewrite <- app_assoc.
  - change ("/" ++ n ++ "") with (String "/" (n ++ "")).
    rewrite append_nil_r.
    apply (basename_of_pieces _ name ("" :: rev stack) []);
      [|exact Hn | now left].
    cbn [splitSlash]. change (isSlash "/") with true. cbv iota.
    now rewrite Hsplit.
  - change ("" ++ n ++ "/") with (n ++ String "/" "").
    apply (basename_of_pieces _ name (rev stack) [""]);
      [|exact Hn | now right].
    rewrite splitSlash_app_slash, Hsplit. simpl. now rewrite <- app_assoc.
  - change ("" ++ n ++ "") with (n ++ ""). rewrite append_nil_r.
    apply (basename_of_pieces _ name (rev stack) []);
      [exact Hsplit | exact Hn | now left].
Qed.

Lemma basename_join (dirPath name : string) :
  goodSegment name = true -> slashFree name = true ->
  basename (join [dirPath; name]) = name.
Proof.
  intros Hg Hs.
  assert (Hn : name <> "") by now apply goodSegment_not_empty.
  assert (Hne : negb (String.eqb name "") = true)
    by (apply negb_true_iff, String.eqb_neq, Hn).
  unfold join. cbn [filter]. rewrite Hne.
  destruct (String.eqb dirPath ""); cbn [negb].
  - apply (basename_normalize_last _ name []); [|exact Hg | exact Hs].
    simpl. now apply splitSlash_of_slashFree.
  - apply (basename_normalize_last _ name (splitSlash dirPath));
      [|exact Hg | exact Hs].
    rewrite joinSlash_cons2. cbn [joinSlash String.concat].
    now rewrite splitSlash_app_slash, (splitSlash_of_slashFree name Hs).
Qed.

(** A listing has one record per entry, in the order of [readdir], named
    as the entries are; and the name of each record is the last component
    of its path, as in the record [readFile] builds. *)
Theorem readDirectory_records (fs : FsApi) (dirPath : string)
        (entries : list Dirent) :
  readdir fs dirPath = inr entries ->
  Forall properEntry entries ->
  exists infos,
    readDirectory fs dirPath = inr infos /\
    map fiName infos = map entryName entries /\
    Forall (fun info => basename (fiPath info) = fiName info) infos.
Proof.
  intros Hr Hp. exists (map (entryInfo dirPath) entries).
  unfold readDirectory. rewrite Hr. split; [reflexivity | split].
  - rewrite map_map. reflexivity.
  - apply Forall_forall. intros info Hin.
    apply in_map_iff in Hin as (entry & <- & Hentry).
    destruct (proj1 (Forall_forall _ _) Hp entry Hentry) as [Hg Hs].
    unfold entryInfo. cbn [fiPath fiName]. now apply basename_join.
Qed.

Lemma readDirectory_records_witness :
  exists infos,
    readDirectory sampleFs "/srv/app/storage" = inr infos /\
    map fiName infos = ["notes.md"; "sub"] /\
    Forall (fun info => basename (fiPath info) = fiName info) infos.
Proof.
  exact (readDirectory_records sampleFs "/srv/app/storage"
           [mkDirent "notes.md" false; mkDirent "sub" true] eq_refl
           ltac:(repeat constructor)).
Defined.

End DirectoryRecords.

(** ** getContextFromPath on a file and on a directory *)

Section AggregationMore.

Import Exn FileSystemTools Samples.

(** On a path that is not a directory and can be read, aggregation
    returns exactly one record: a file named after the last component of
    the path, at that path, holding the whole text read. *)
Theorem getContextFromPath_on_file
        (fs : FsApi) (p content : string) (st : Stats) :
  stat fs p = inr st -> isDirectory st = false ->
  readFileUtf8 fs p = inr content ->
  exists info,
    getContextFromPath fs p = inr [info] /\
    fiName info = path.basename p /\ fiPath info = p /\
    fiType info = file /\ fiContent info = Some content.
Proof.
  intros Hs Hd Hr. eexists. split.
  - apply (getContextFromPath_file fs p content st Hs Hd Hr).
  - repeat split.
Qed.

Lemma getContextFromPath_on_file_witness :
  exists info,
    getContextFromPath sampleFs "/srv/app/storage/notes.md" = inr [info] /\
    fiName info = path.basename "/srv/app/storage/notes.md" /\
    fiPath info = "/srv/app/storage/notes.md" /\
    fiType info = file /\ fiContent info = Some "hello world".
Proof.
  exact (getContextFromPath_on_file sampleFs "/srv/app/storage/notes.md"
           "hello world" (mkStats false) eq_refl eq_refl eq_refl).
Defined.

(** On a directory that can be listed, aggregation returns one record per
    entry of the listing, in its order: each is named as the entry, typed
    as a directory or a file as the entry says, and none carries any
    content, so no file is read. *)
Theorem getContextFromPath_on_directory
        (fs : FsApi) (p : string) (st : Stats) (entries : list Dirent) :
  stat fs p = inr st -> isDirectory st = true ->
  readdir fs p = inr entries ->
  exists infos,
    getContextFromPath fs p = inr infos /\
    List.length infos = List.length entries /\
    map fiName infos = map entryName entries /\
    map fiType infos
    = map (fun entry => if entryIsDirectory entry then directory else file)
          entries /\
    Forall (fun info => fiContent info = None) infos.
Proof.
  intros Hs Hd Hr.
  destruct (getContextFromPath_directory fs p st entries Hs Hd Hr)
    as [E Hnone].
  exists (map (entryInfo p) entries). split; [exact E|].
  rewrite length_map, !map_map. repeat split. exact Hnone.
Qed.

Lemma getContextFromPath_on_directory_witness :
  exists infos,
    getContextFromPath sampleFs "/srv/app/storage" = inr infos /\
    List.length infos = 2%nat /\
    map fiName infos = ["notes.md"; "sub"] /\
    map fiType infos = [file; directory] /\
    Forall (fun info => fiContent info = None) infos.
Proof.
  exact (getContextFromPath_on_directory sampleFs "/srv/app/storage"
           (mkStats true) [mkDirent "notes.md" false; mkDirent "sub" true]
           eq_refl eq_refl eq_refl).
Defined.

End AggregationMore.

(** ** The provider gateway: when a query counts as a success *)

Section GatewayMore.

Import Exn Json ModelInterface Samples Nullish.

Variable config : Config.
Variable backend : Backend.
Variables prompt context : string.

Lemma getProp_defined (v : JsValue) (key : string) :
  (exists r, getProp v key = inr r) <-> nullish v = false.
Proof.
  destruct v; simpl; split; intros H; try reflexivity; try discriminate;
    try (destruct H as (r & H); discriminate); eauto.
Qed.

(** [queryOllama] reports a success exactly when the request resolved with
    a truthy body whose [response] field is truthy, and the response is
    then that field under the literal of the variant, without [error]; a
    [response] that is missing, empty, [0], [false] or [null] is an
    error. *)
Theorem queryOllama_success_iff :
  (error (queryOllama config backend prompt context) = None <->
   exists data r,
     backend (ollamaRequest config prompt context) = Resolved data /\
     truthy data = true /\
     getProp data "response" = inr r /\ truthy r = true) /\
  (forall data r,
      backend (ollamaRequest config prompt context) = Resolved data ->
      truthy data = true ->
      getProp data "response" = inr r -> truthy r = true ->
      queryOllama config backend prompt context
      = mkLLMResponse r "ollama" None).
Proof.
  unfold queryOllama, queryOllamaTry. split; [split|].
  - destruct (backend (ollamaRequest _ _ _)) as [e|data]; [discriminate|].
    destruct (truthy data) eqn:Td; simpl negb; cbv iota; [|discriminate].
    destruct (getProp data "response") as [e|r] eqn:G; [discriminate|].
    destruct (truthy r) eqn:Tr; simpl negb; cbv iota; [|discriminate].
    intros _. exists data, r. auto.
  - intros (data & r & -> & -> & -> & ->). reflexivity.
  - intros data r -> -> -> ->. reflexivity.
Qed.

(** [queryTogether] reports a success exactly when the request resolved
    with a body that is neither [null] nor [undefined] and whose [output]
    is neither; what [output.text] holds is never looked at. *)
Theorem queryTogether_success_iff :
  error (queryTogether config backend prompt context) = None <->
  exists data output,
    backend (togetherRequest config prompt context) = Resolved data /\
    getProp data "output" = inr output /\ nullish output = false.
Proof.
  unfold queryTogether, queryTogetherTry. split.
  - destruct (backend (togetherRequest _ _ _)) as [e|data]; [discriminate|].
    destruct (getProp data "output") as [e|output] eqn:G; [discriminate|].
    destruct (getProp output "text") as [e|t] eqn:G2; [discriminate|].
    intros _. exists data, output.
    split; [reflexivity | split; [exact G|]].
    apply (getProp_defined output "text"). eauto.
  - intros (data & output & -> & -> & Hn).
    apply getProp_defined with (key := "text") in Hn as (t & ->).
    reflexivity.
Qed.

End GatewayMore.

Section GatewayMoreWitnesses.

Import Exn Json ModelInterface Samples Nullish.

Lemma queryOllama_success_iff_witness :
  queryOllama sampleConfig (always (Resolved greeting)) "summarize" ""
  = mkLLMResponse (VStr "A greeting.") "ollama" None.
Proof.
  exact (proj2 (queryOllama_success_iff sampleConfig
                  (always (Resolved greeting)) "summarize" "")
               greeting (VStr "A greeting.")
               eq_refl eq_refl eq_refl eq_refl).
Defined.

Lemma queryTogether_success_iff_witness :
  error (queryTogether sampleConfig (always (Resolved choicesBody))
                       "summarize" "") = None.
Proof.
  apply (proj2 (queryTogether_success_iff sampleConfig
                  (always (Resolved choicesBody)) "summarize" "")).
  exists choicesBody,
    (VObj [("choices", VArr [VObj [("text", VStr "A greeting.")]])]).
  repeat split.
Defined.

End GatewayMoreWitnesses.

(** ** The query route *)

Section QueryRoute.

Import Js Exn Json FileSystemTools ModelInterface promptUtils validators
       Server.

Variable w : World.

Ltac closed_lengths :=
  repeat match goal with
         | |- context [strlen (String ?c ?s)] =>
             let v := eval vm_compute in (strlen (String c s)) in
             change (strlen (String c s)) with v
         end.

Lemma sent_prompt_length (context query : string) :
  strlen (formatPrompt
            (formatContextPrompt
               (truncateContext context defaultMaxLength) query)
            context)
  = strlen context + strlen (truncateContext context defaultMaxLength)
    + strlen query + 257.
Proof.
  unfold formatPrompt, formatContextPrompt.
  rewrite !strlen_app. closed_lengths. lia.
Qed.

(** For a valid request whose path could be read, the route hands the
    provider one request, and its reply depends on the backend through
    the answer to that request alone: another backend answering it alike
    gives the same reply, and its rejection shows in the reply.  The
    prompt of that request holds the whole context next to the formatted
    prompt, which already holds the truncated one: as long as the context,
    its truncation, the query and 257 characters together, whatever the
    limit of the truncation. *)
Theorem handleQuery_sends_whole_context
        (body model : JsValue) (p q : string) (files : list FileInfo) :
  destructure body = inr (VStr p, VStr q, model) ->
  isValidPath (VStr p) = true -> isValidQuery (VStr q) = true ->
  getContextFromPath (fs w) (fileUtils.sanitizePath (cwd w) p) = inr files ->
  exists request sent rest,
    ModelInterface.reqBody request
    = VObj (("model", VStr (modelName (config w)))
              :: ("prompt", VStr sent) :: rest) /\
    strlen sent
    = strlen (buildContext files)
      + strlen (truncateContext (buildContext files) defaultMaxLength)
      + strlen q + 257 /\
    (forall backend',
        backend' request = backend w request ->
        handleQuery (mkWorld (cwd w) (fs w) (config w) backend') body
        = handleQuery w body) /\
    (forall e,
        backend w request = Rejected e ->
        exists provider,
          handleQuery w body
          = mkHttpReply 200
              (BodyResponse
                 (mkLLMResponse (VStr "") provider (Some (messageOf e))))).
Proof.
  intros Hd Hp Hq G.
  unfold handleQuery, handleQueryTry. cbn [cwd fs config backend].
  rewrite Hd, Hp, Hq, G. simpl negb. cbn [orb].
  unfold dispatch. cbn [config backend].
  destruct (match model with
            | VStr m => String.eqb m "ollama"
            | _ => false
            end).
  - eexists (ollamaRequest (config w) _ (buildContext files)), _, _.
    split; [reflexivity|]. split; [apply sent_prompt_length|].
    unfold queryOllama, queryOllamaTry. split.
    + intros backend' ->. reflexivity.
    + intros e ->. exists "ollama". reflexivity.
  - eexists (togetherRequest (config w) _ (buildContext files)), _, _.
    split; [reflexivity|]. split; [apply sent_prompt_length|].
    unfold queryTogether, queryTogetherTry. split.
    + intros backend' ->. reflexivity.
    + intros e ->. exists "together". reflexivity.
Qed.

Lemma directory_records_not_in_context (dirPath : string)
      (entries : list Dirent) :
  buildContext (map (entryInfo dirPath) entries) = "".
Proof.
  unfold buildContext.
  assert (E : filter inContext (map (entryInfo dirPath) entries) = []).
  { induction entries as [|entry entries IH]; [reflexivity | exact IH]. }
  now rewrite E.
Qed.

(** The status of the reply is 200 or 500, and it is 200 exactly when the
    body holds a valid path and a valid query and the path could be read:
    what the model backend does plays no part, so a provider failure is
    answered with 200. *)
Theorem handleQuery_status (reqBody : JsValue) :
  (status (handleQuery w reqBody) = 200 \/
   status (handleQuery w reqBody) = 500) /\
  (status (handleQuery w reqBody) = 200 <->
   exists p q model files,
     destructure reqBody = inr (VStr p, VStr q, model) /\
     isValidPath (VStr p) = true /\ isValidQuery (VStr q) = true /\
     getContextFromPath (fs w) (fileUtils.sanitizePath (cwd w) p)
       = inr files).
Proof.
  unfold handleQuery, handleQueryTry.
  destruct (destructure reqBody) as [e | [[path query] model]].
  { split; [now right|]. split; [discriminate|].
    intros (p & q & m & files & H & _). discriminate. }
  destruct (isValidPath path) eqn:Vp.
  2:{ simpl. split; [now right|]. split; [discriminate|].
      intros (p & q & m & files & H & Hp & _).
      injection H as -> _ _.
      change (isValidPath (VStr p) = true) in Hp. congruence. }
  destruct (isValidQuery query) eqn:Vq.
  2:{ simpl. split; [now right|]. split; [discriminate|].
      intros (p & q & m & files & H & _ & Hq & _).
      injection H as _ -> _.
      change (isValidQuery (VStr q) = true) in Hq. congruence. }
  simpl negb. cbn [orb].
  destruct path as [| | | | p | |]; try discriminate Vp.
  destruct query as [| | | | q | |]; try discriminate Vq.
  destruct (getContextFromPath (fs w) (fileUtils.sanitizePath (cwd w) p))
    as [e | files] eqn:G.
  - split; [now right|]. split; [discriminate|].
    intros (p' & q' & m & files & H & _ & _ & G').
    injection H as <- _ _. congruence.
  - split; [now left|]. split; [|reflexivity].
    intros _. exists p, q, model, files. auto.
Qed.

(** What a refused request is answered: the fixed message for a path or a
    query that does not validate, and otherwise the message of the failure
    met while reading the path; always with status 500. *)
Theorem handleQuery_errors (reqBody path query model : JsValue) :
  destructure reqBody = inr (path, query, model) ->
  (isValidPath path = false \/ isValidQuery query = false ->
   handleQuery w reqBody
   = mkHttpReply 500 (BodyError "Invalid input parameters")) /\
  (forall p q e,
      path = VStr p -> query = VStr q ->
      isValidPath path = true -> isValidQuery query = true ->
      getContextFromPath (fs w) (fileUtils.sanitizePath (cwd w) p) = inl e ->
      handleQuery w reqBody = mkHttpReply 500 (BodyError (messageOf e))).
Proof.
  intros Hd. unfold handleQuery, handleQueryTry. rewrite Hd. split.
  - intros [H | H]; rewrite H; [reflexivity|].
    now rewrite orb_true_r.
  - intros p q e -> -> Hp Hq G. now rewrite Hp, Hq, G.
Qed.

(** A query about a directory is answered from an empty context: the
    records of a listing carry no content, so none of them passes the
    filter of the route. *)
Theorem handleQuery_directory_has_empty_context
        (reqBody model : JsValue) (p q : string) (st : Stats)
        (entries : list Dirent) :
  destructure reqBody = inr (VStr p, VStr q, model) ->
  isValidPath (VStr p) = true -> isValidQuery (VStr q) = true ->
  stat (fs w) (fileUtils.sanitizePath (cwd w) p) = inr st ->
  isDirectory st = true ->
  readdir (fs w) (fileUtils.sanitizePath (cwd w) p) = inr entries ->
  handleQuery w reqBody
  = mkHttpReply 200
      (BodyResponse (dispatch w model (formatContextPrompt "" q) "")).
Proof.
  intros Hd Hp Hq Hs Hdir Hr. unfold handleQuery, handleQueryTry.
  rewrite Hd, Hp, Hq. simpl negb. cbn [orb].
  destruct (getContextFromPath_directory (fs w) _ st entries Hs Hdir Hr)
    as [-> _].
  now rewrite directory_records_not_in_context.
Qed.

(** A query about a single file is answered from that file alone: its
    content, headed by its name, when the content is not empty and the
    path has a recognised extension, and from an empty context
    otherwise. *)
Theorem handleQuery_single_file
        (reqBody model : JsValue) (p q content : string) (st : Stats) :
  destructure reqBody = inr (VStr p, VStr q, model) ->
  isValidPath (VStr p) = true -> isValidQuery (VStr q) = true ->
  let sanitizedPath := fileUtils.sanitizePath (cwd w) p in
  stat (fs w) sanitizedPath = inr st -> isDirectory st = false ->
  readFileUtf8 (fs w) sanitizedPath = inr content ->
  let context :=
    if negb (String.eqb content "") && fileUtils.isTextFile sanitizedPath
    then "File: " ++ path.basename sanitizedPath ++ String LF content
    else "" in
  handleQuery w reqBody
  = mkHttpReply 200
      (BodyResponse
         (dispatch w model
            (formatContextPrompt (truncateContext context defaultMaxLength) q)
            context)).
Proof.
  intros Hd Hp Hq sanitizedPath Hs Hdir Hr context.
  unfold handleQuery, handleQueryTry.
  rewrite Hd, Hp, Hq. simpl negb. cbn [orb]. fold sanitizedPath.
  rewrite (getContextFromPath_file (fs w) sanitizedPath content st Hs Hdir Hr).
  assert (E : buildContext
                [mkFileInfo (path.basename sanitizedPath) sanitizedPath file
                            (Some content)] = context).
  { unfold buildContext, context.
    cbn [filter inContext fiContent fiPath].
    destruct (negb (String.eqb content "")
              && fileUtils.isTextFile sanitizedPath); reflexivity. }
  now rewrite E.
Qed.

(** Which provider answers depends on the [model] field alone: Ollama
    when it is absent or is the string ["ollama"], Together for every
    other value, recognised or not. *)
Theorem dispatch_by_model_field
        (fields : list (string * JsValue)) (path query model : JsValue)
        (formattedPrompt context : string) :
  destructure (VObj fields) = inr (path, query, model) ->
  ModelInterface.model (dispatch w model formattedPrompt context)
  = match lookup fields "model" with
    | VUndefined => "ollama"
    | VStr m => if String.eqb m "ollama" then "ollama" else "together"
    | _ => "together"
    end.
Proof.
  intros Hd. cbn [destructure] in Hd. injection Hd as _ _ <-.
  destruct (query_model_literal (config w) (backend w)
              formattedPrompt context) as [Ho Ht].
  unfold dispatch.
  destruct (lookup fields "model") as [| | b | n | m | items | fs'];
    try exact Ht; [exact Ho|].
  destruct (String.eqb m "ollama"); assumption.
Qed.

End QueryRoute.

Section QueryRouteWitnesses.

Import Js Exn Json FileSystemTools ModelInterface promptUtils validators
       Server Samples SampleRequests.

Lemma handleQuery_errors_witness :
  handleQuery world (queryBody "storage/../x" (VStr "ollama"))
  = mkHttpReply 500 (BodyError "Invalid input parameters").
Proof.
  exact (proj1 (handleQuery_errors world
                  (queryBody "storage/../x" (VStr "ollama"))
                  (VStr "storage/../x") (VStr "summarize") (VStr "ollama")
                  eq_refl)
               (or_introl eq_refl)).
Defined.

Lemma handleQuery_directory_has_empty_context_witness :
  handleQuery world (queryBody "storage" (VStr "ollama"))
  = mkHttpReply 200
      (BodyResponse
         (dispatch world (VStr "ollama")
                   (formatContextPrompt "" "summarize") "")).
Proof.
  exact (handleQuery_directory_has_empty_context world
           (queryBody "storage" (VStr "ollama")) (VStr "ollama")
           "storage" "summarize" (mkStats true)
           [mkDirent "notes.md" false; mkDirent "sub" true]
           eq_refl eq_refl eq_refl eq_refl eq_refl eq_refl).
Defined.

Lemma handleQuery_single_file_witness :
  handleQuery world (queryBody "storage/notes.md" (VStr "ollama"))
  = mkHttpReply 200
      (BodyResponse
         (dispatch world (VStr "ollama")
            (formatContextPrompt
               (truncateContext ("File: notes.md" ++ String LF "hello world")
                                defaultMaxLength)
               "summarize")
            ("File: notes.md" ++ String LF "hello world"))).
Proof.
  exact (handleQuery_single_file world
           (queryBody "storage/notes.md" (VStr "ollama")) (VStr "ollama")
           "storage/notes.md" "summarize" "hello world" (mkStats false)
           eq_refl eq_refl eq_refl eq_refl eq_refl eq_refl).
Defined.

Lemma dispatch_by_model_field_witness :
  ModelInterface.model
    (dispatch world (VStr "gpt-4") (formatContextPrompt "" "summarize") "")
  = "together".
Proof.
  exact (dispatch_by_model_field world
           [("path", VStr "storage"); ("query", VStr "summarize");
            ("model", VStr "gpt-4")]
           (VStr "storage") (VStr "summarize") (VStr "gpt-4")
           (formatContextPrompt "" "summarize") "" eq_refl).
Defined.

Lemma handleQuery_sends_whole_context_witness :
  exists request sent rest,
    ModelInterface.reqBody request
    = VObj (("model", VStr "llama2") :: ("prompt", VStr sent) :: rest) /\
    strlen sent
    = strlen ("File: notes.md" ++ String LF "hello world")
      + strlen (truncateContext
                  ("File: notes.md" ++ String LF "hello world")
                  defaultMaxLength)
      + strlen "summarize" + 257 /\
    (forall backend',
        backend' request = backend worldOffline request ->
        handleQuery (mkWorld "/srv/app" sampleFs sampleConfig backend')
                    (queryBody "storage/notes.md" (VStr "ollama"))
        = handleQuery worldOffline
                      (queryBody "storage/notes.md" (VStr "ollama"))) /\
    (forall e,
        backend worldOffline request = Rejected e ->
        exists provider,
          handleQuery worldOffline
                      (queryBody "storage/notes.md" (VStr "ollama"))
          = mkHttpReply 200
              (BodyResponse
                 (mkLLMResponse (VStr "") provider (Some (messageOf e))))).
Proof.
  exact (handleQuery_sends_whole_context worldOffline
           (queryBody "storage/notes.md" (VStr "ollama")) (VStr "ollama")
           "storage/notes.md" "summarize"
           [mkFileInfo "notes.md" "/srv/app/storage/notes.md" file
                       (Some "hello world")]
           eq_refl eq_refl eq_refl eq_refl).
Defined.

Lemma handleQuery_status_witness :
  status (handleQuery worldOffline
            (queryBody "storage/notes.md" (VStr "ollama"))) = 200.
Proof.
  apply (proj2 (proj2 (handleQuery_status worldOffline
                         (queryBody "storage/notes.md" (VStr "ollama"))))).
  exists "storage/notes.md", "summarize", (VStr "ollama"),
    [mkFileInfo "notes.md" "/srv/app/storage/notes.md" file
                (Some "hello world")].
  repeat split.
Defined.

End QueryRouteWitnesses.

(** ** UserManager *)

Section Users.

Import UserManager SampleRequests.

(** Looking a user up after adding one: a user already stored under the
    id is still the one found, so a later user with the same id never
    replaces it; otherwise the new user is found under its own id and
    under no other. *)
Theorem findUser_after_addUser (users : Users) (user : User) (id : string) :
  findUser (addUser users user) id
  = match findUser users id with
    | Some found => Some found
    | None => if String.eqb (userId user) id then Some user else None
    end.
Proof.
  unfold findUser, addUser.
  induction users as [|u users IH]; simpl.
  - destruct (String.eqb (userId user) id); reflexivity.
  - destruct (String.eqb (userId u) id); [reflexivity | exact IH].
Qed.

(** What [findUser] returns is a stored user with the id asked for, and
    the earliest one: no user added before it has that id. *)
Theorem findUser_earliest (users : Users) (id : string) (found : User) :
  findUser users id = Some found ->
  userId found = id /\
  exists before after,
    users = (before ++ found :: after)%list /\
    Forall (fun u => userId u <> id) before.
Proof.
  unfold findUser. induction users as [|u users IH]; simpl; [discriminate|].
  destruct (String.eqb_spec (userId u) id) as [E | E].
  - intros H. injection H as <-. split; [exact E|].
    exists [], users. split; [reflexivity | constructor].
  - intros H. destruct (IH H) as (Hid & before & after & -> & Hb).
    split; [exact Hid|]. exists (u :: before), after.
    split; [reflexivity | constructor; assumption].
Qed.

Lemma findUser_earliest_witness :
  userId ada = "u1" /\
  exists before after,
    addUser (addUser (addUser empty grace) ada) impostor
    = (before ++ ada :: after)%list /\
    Forall (fun u => userId u <> "u1") before.
Proof.
  exact (findUser_earliest
           (addUser (addUser (addUser empty grace) ada) impostor)
           "u1" ada eq_refl).
Defined.

(** Nobody is found under an id that was never added. *)
Theorem findUser_unknown_id (users : Users) (id : string) :
  Forall (fun u => userId u <> id) users -> findUser users id = None.
Proof.
  unfold findUser. induction 1 as [|u users Hu _ IH]; [reflexivity|].
  simpl. destruct (String.eqb_spec (userId u) id); [contradiction | exact IH].
Qed.

Lemma findUser_unknown_id_witness :
  findUser (addUser (addUser empty grace) ada) "u9" = None.
Proof.
  apply (findUser_unknown_id (addUser (addUser empty grace) ada) "u9").
  repeat constructor; discriminate.
Defined.

End Users.
